(** * Hotel data merging: supplier adapters, reconciliation and query

    A shallow embedding of [src/main.py]: the three supplier adapters
    ([Acme], [Paperflies], [Patagonia]), the amenity classifier
    ([camel_to_snake_case] and the two vocabularies), and the service
    ([HotelsService.merge_and_save], [HotelsService.find]).

    Conventions of the embedding.
    - A Python [str] is a [string]; characters are ASCII (a character
      above 127 is kept as it is by [lower] and is no white space).
    - A raw supplier record is a JSON object read with [dto["k"]] or
      [dto.get("k", d)]: each key is a [jfield], absent, null or a value.
    - The values of a raw record have the types of the supplier's shape
      (a string where the adapter strips or searches one, a list of strings
      for facilities, two lists of strings for classified amenities); what
      the code raises on values of other types is outside the model.
    - A Python exception is a value of [pyexn]; code that may raise
      returns a [result].
    - [HotelsService] methods are state-passing functions on the service
      object ([Method]); an exception leaves the object as it was when
      the exception was raised. *)

From Stdlib Require Import String Ascii List ZArith Bool Arith Lia.
From Stdlib Require Import Permutation DecimalString Floats.
Import ListNotations.

Local Open Scope string_scope.
Local Open Scope list_scope.

(** ** Python exceptions and results *)

Inductive pyexn : Type :=
| KeyError
| TypeError
| AttributeError.

Definition result (A : Type) : Type := (pyexn + A)%type.

Definition ok {A} (a : A) : result A := inr a.
Definition raise {A} (e : pyexn) : result A := inl e.

Definition rbind {A B} (m : result A) (k : A -> result B) : result B :=
  match m with
  | inl e => inl e
  | inr a => k a
  end.

Declare Scope result_scope.
Delimit Scope result_scope with result.
Notation "x <- m ;; k" := (rbind m (fun x => k))
  (at level 61, m at next level, right associativity) : result_scope.
Local Open Scope result_scope.

(** ** Truthiness *)

Class Truthy (A : Type) := truthy : A -> bool.

#[global] Instance truthy_string : Truthy string :=
  fun s => match s with EmptyString => false | String _ _ => true end.

#[global] Instance truthy_list {A} : Truthy (list A) :=
  fun l => match l with [] => false | _ :: _ => true end.

(** [None] is falsy; [Some a] is as truthy as [a]. *)
#[global] Instance truthy_option {A} `{Truthy A} : Truthy (option A) :=
  fun o => match o with None => false | Some a => truthy a end.

(** [x or y] on two values of one type. *)
Definition py_or {A} `{Truthy A} (x y : A) : A :=
  if truthy x then x else y.

(** [x or d] where [x] may be [None] and [d] is a default of the value type
    ([dto["Description"] or ""], [dto["Facilities"] or []]). *)
Definition or_default {A} `{Truthy A} (x : option A) (d : A) : A :=
  match x with
  | Some a => if truthy a then a else d
  | None => d
  end.

(** ** Scalar values of a decoded JSON payload *)

Inductive pyval : Type :=
| VNone
| VStr (s : string)
| VInt (z : Z)
| VFloat (f : float).

#[global] Instance truthy_pyval : Truthy pyval :=
  fun v =>
    match v with
    | VNone => false
    | VStr s => truthy s
    | VInt z => negb (z =? 0)%Z
    | VFloat f => negb (PrimFloat.eqb f 0%float)
    end.

(** Identifier values ([destination_id]): a JSON integer, string or null. *)
Inductive pyid : Type :=
| INone
| IInt (z : Z)
| IStr (s : string).

(** [str(x)]. *)
Definition py_str (x : pyid) : string :=
  match x with
  | INone => "None"
  | IInt z => NilZero.string_of_int (Z.to_int z)
  | IStr s => s
  end.

(** ** JSON object keys *)

Inductive jfield (A : Type) : Type :=
| Absent
| Null
| Val (a : A).
Arguments Absent {A}.
Arguments Null {A}.
Arguments Val {A} a.

(** [dto["k"]]: [KeyError] on an absent key, [None] for null. *)
Definition getitem {A} (f : jfield A) : result (option A) :=
  match f with
  | Absent => raise KeyError
  | Null => ok None
  | Val a => ok (Some a)
  end.

(** [dto.get("k", d)]: the default only for an absent key. *)
Definition get_default {A} (f : jfield A) (d : option A) : option A :=
  match f with
  | Absent => d
  | Null => None
  | Val a => Some a
  end.

(** [dto.get("k")]. *)
Definition get {A} (f : jfield A) : option A := get_default f None.

(** A key whose value is passed on untouched, whatever scalar it holds. *)
Definition getitem_val (f : jfield pyval) : result pyval :=
  v <- getitem f ;;
  ok (match v with None => VNone | Some x => x end).

Definition getitem_id (f : jfield pyid) : result pyid :=
  v <- getitem f ;;
  ok (match v with None => INone | Some x => x end).

(** ** String operations *)

Definition is_upper (c : ascii) : bool :=
  let n := nat_of_ascii c in ((65 <=? n) && (n <=? 90))%nat.

Definition lower_char (c : ascii) : ascii :=
  if is_upper c then ascii_of_nat (nat_of_ascii c + 32) else c.

(** [s.lower()]. *)
Fixpoint lower (s : string) : string :=
  match s with
  | EmptyString => EmptyString
  | String c s' => String (lower_char c) (lower s')
  end.

(** White space as [str.strip()] sees it in the ASCII range: tab, line feed,
    vertical tab, form feed, carriage return, the four separators 28..31 and
    the space. *)
Definition is_space (c : ascii) : bool :=
  let n := nat_of_ascii c in
  (((9 <=? n) && (n <=? 13)) || ((28 <=? n) && (n <=? 32)))%nat.

Fixpoint lstrip (s : string) : string :=
  match s with
  | EmptyString => EmptyString
  | String c s' => if is_space c then lstrip s' else s
  end.

Fixpoint rstrip (s : string) : string :=
  match s with
  | EmptyString => EmptyString
  | String c s' =>
      match rstrip s' with
      | EmptyString => if is_space c then EmptyString else String c EmptyString
      | r => String c r
      end
  end.

(** [s.strip()]. *)
Definition strip (s : string) : string := rstrip (lstrip s).

(** [p in s] on two strings: [p] occurs in [s]. *)
Fixpoint str_in (p s : string) : bool :=
  prefix p s ||
  match s with
  | EmptyString => false
  | String _ s' => str_in p s'
  end.

(** [x in l] on a list of strings. *)
Definition list_in (x : string) (l : list string) : bool :=
  existsb (String.eqb x) l.

(** ** The amenity vocabularies and the compound-word normalizer *)

Definition GENERAL_AMENITIES : list string :=
  ["outdoor pool"; "indoor pool"; "business center"; "childcare"; "wifi";
   "dry cleaning"; "breakfast"].

Definition ROOM_AMENITIES : list string :=
  ["aircon"; "tv"; "coffee machine"; "kettle"; "hair dryer"; "iron"; "bathtub"].

(** The substitution of [re.sub(r'(?<!^)([A-Z])', r' \1', s)] from the second
    character on: a space goes before every capital letter. *)
Fixpoint space_capitals (s : string) : string :=
  match s with
  | EmptyString => EmptyString
  | String c s' =>
      if is_upper c then String " " (String c (space_capitals s'))
      else String c (space_capitals s')
  end.

(** The whole substitution: the look-behind [(?<!^)] exempts the first
    character only. *)
Definition re_sub_capitals (s : string) : string :=
  match s with
  | EmptyString => EmptyString
  | String c s' => String c (space_capitals s')
  end.

Definition camel_to_snake_case (s : string) : string :=
  lower (re_sub_capitals s).

(** ** The canonical entity *)

Module Location.
Record t : Type := mk
  { lat : pyval; lng : pyval; address : pyval; city : pyval; country : pyval }.

(** The keys of the [location] dict, in the order every adapter writes
    them. *)
Inductive key : Type := Klat | Klng | Kaddress | Kcity | Kcountry.

Definition getk (k : key) (l : t) : pyval :=
  match k with
  | Klat => lat l
  | Klng => lng l
  | Kaddress => address l
  | Kcity => city l
  | Kcountry => country l
  end.

Definition setk (k : key) (v : pyval) (l : t) : t :=
  match k with
  | Klat => mk v (lng l) (address l) (city l) (country l)
  | Klng => mk (lat l) v (address l) (city l) (country l)
  | Kaddress => mk (lat l) (lng l) v (city l) (country l)
  | Kcity => mk (lat l) (lng l) (address l) v (country l)
  | Kcountry => mk (lat l) (lng l) (address l) (city l) v
  end.

(** [l.items()]. *)
Definition items (l : t) : list (key * pyval) :=
  [(Klat, lat l); (Klng, lng l); (Kaddress, address l); (Kcity, city l);
   (Kcountry, country l)].

(** [{**l, **new}]. *)
Definition update (l : t) (new : list (key * pyval)) : t :=
  fold_left (fun acc kv => setk (fst kv) (snd kv) acc) new l.
End Location.

Module Amenities.
Record t : Type := mk { general : list string; room : list string }.
End Amenities.

Module Image.
Record t : Type := mk { link : option string; description : option string }.

Definition opt_eqb (a b : option string) : bool :=
  match a, b with
  | None, None => true
  | Some x, Some y => String.eqb x y
  | _, _ => false
  end.

(** [a == b] on two image dicts. *)
Definition eqb (a b : t) : bool :=
  opt_eqb (link a) (link b) && opt_eqb (description a) (description b).

(** [img in l]. *)
Definition mem (img : t) (l : list t) : bool := existsb (eqb img) l.
End Image.

Module Images.
Record t : Type := mk
  { rooms : list Image.t; site : list Image.t; amenities : list Image.t }.
End Images.

(** [booking_conditions] is [None] when an adapter hands a null on. *)
Record Hotel : Type := mkHotel
  { id : string;
    destination_id : pyid;
    name : option string;
    description : string;
    location : Location.t;
    amenities : Amenities.t;
    images : Images.t;
    booking_conditions : option (list string) }.

(** ** Supplier adapters *)

(** A key every record must carry with a string value: the identifier. *)
Definition getitem_str (f : option string) : result string :=
  match f with
  | None => raise KeyError
  | Some s => ok s
  end.

(** [[f(x) for x in l]] where [f] may raise. *)
Fixpoint mapM {A B} (f : A -> result B) (l : list A) : result (list B) :=
  match l with
  | [] => ok []
  | x :: r => y <- f x ;; ys <- mapM f r ;; ok (y :: ys)
  end.

(** [for x in o] where [o] is [None] or a list. *)
Definition iterable {A} (o : option (list A)) : result (list A) :=
  match o with
  | None => raise TypeError
  | Some l => ok l
  end.

Module Acme.
Record dto : Type := mkDto
  { Id : option string;
    DestinationId : jfield pyid;
    Name : jfield string;
    Description : jfield string;
    Latitude : jfield pyval;
    Longitude : jfield pyval;
    Address : jfield string;
    City : jfield pyval;
    Country : jfield pyval;
    PostalCode : jfield string;
    Facilities : jfield (list string) }.

(** The loop of [parse_amenities], with the two lists it appends to. *)
Fixpoint parse_amenities_loop (facilities general room : list string)
  : list string * list string :=
  match facilities with
  | [] => (general, room)
  | amenity :: rest =>
      let formatted := camel_to_snake_case (strip amenity) in
      let general :=
        if list_in formatted GENERAL_AMENITIES then general ++ [formatted]
        else general in
      let room :=
        if list_in formatted ROOM_AMENITIES then room ++ [formatted]
        else room in
      parse_amenities_loop rest general room
  end.

Definition parse_amenities (facilities : list string) : Amenities.t :=
  let (general, room) := parse_amenities_loop facilities [] [] in
  Amenities.mk general room.

Definition parse (d : dto) : result Hotel :=
  a <- getitem (Address d) ;;
  let address := strip (or_default a "") in
  p <- getitem (PostalCode d) ;;
  let address :=
    match p with
    | Some postal =>
        if truthy postal && negb (str_in postal address)
        then (address ++ ", " ++ postal)%string
        else address
    | None => address
    end in
  i <- getitem_str (Id d) ;;
  dest <- getitem_id (DestinationId d) ;;
  n <- getitem (Name d) ;;
  descr <- getitem (Description d) ;;
  la <- getitem_val (Latitude d) ;;
  lo <- getitem_val (Longitude d) ;;
  ci <- getitem_val (City d) ;;
  co <- getitem_val (Country d) ;;
  f <- getitem (Facilities d) ;;
  ok {| id := i;
        destination_id := dest;
        name := n;
        description := or_default descr "";
        location := Location.mk la lo (VStr address) ci co;
        amenities := parse_amenities (or_default f []);
        images := Images.mk [] [] [];
        booking_conditions := Some [] |}.
End Acme.

Module Paperflies.
Record location_dto : Type := mkLocation
  { address : jfield pyval; country : jfield pyval }.

Record image_dto : Type := mkImage
  { link : jfield string; caption : jfield string }.

Record images_dto : Type := mkImages
  { rooms : jfield (list image_dto); site : jfield (list image_dto) }.

Record dto : Type := mkDto
  { hotel_id : option string;
    destination_id : jfield pyid;
    hotel_name : jfield string;
    details : jfield string;
    location : jfield location_dto;
    amenities : jfield Amenities.t;
    images : jfield images_dto;
    booking_conditions : jfield (list string) }.

(** [{}], the dict [dto.get("location", {})] and [dto["images"] or {}]
    fall back on. *)
Definition empty_location : location_dto := mkLocation Absent Absent.
Definition empty_images : images_dto := mkImages Absent Absent.

(** [location.get(k)] on what [dto.get("location", {})] returned:
    [AttributeError] when that is [None]. *)
Definition location_get (l : option location_dto)
           (k : location_dto -> jfield pyval) : result pyval :=
  match l with
  | None => raise AttributeError
  | Some loc => ok (match get (k loc) with None => VNone | Some v => v end)
  end.

Definition parse_image (img : image_dto) : result Image.t :=
  l <- getitem (link img) ;;
  c <- getitem (caption img) ;;
  ok (Image.mk l c).

(** [[... for img in (dto["images"] or {}).get(k, [])]]. *)
Definition parse_images (imgs : option images_dto)
           (k : images_dto -> jfield (list image_dto))
  : result (list Image.t) :=
  let d := match imgs with Some i => i | None => empty_images end in
  l <- iterable (get_default (k d) (Some [])) ;;
  mapM parse_image l.

Definition parse (d : dto) : result Hotel :=
  let location := get_default (location d) (Some empty_location) in
  i <- getitem_str (hotel_id d) ;;
  dest <- getitem_id (destination_id d) ;;
  n <- getitem (hotel_name d) ;;
  descr <- getitem (details d) ;;
  addr <- location_get location address ;;
  ctry <- location_get location country ;;
  am <- getitem (amenities d) ;;
  imgs <- getitem (images d) ;;
  r <- parse_images imgs rooms ;;
  imgs' <- getitem (images d) ;;
  s <- parse_images imgs' site ;;
  ok (mkHotel i dest n (or_default descr "")
        (Location.mk VNone VNone addr VNone ctry)
        (match am with Some a => a | None => Amenities.mk [] [] end)
        (Images.mk r s [])
        (get_default (booking_conditions d) (Some []))).
End Paperflies.

Module Patagonia.
Record image_dto : Type := mkImage
  { url : jfield string; description : jfield string }.

Record images_dto : Type := mkImages
  { rooms : jfield (list image_dto); amenities_imgs : jfield (list image_dto) }.

Record dto : Type := mkDto
  { id : option string;
    destination : jfield pyid;
    name : jfield string;
    info : jfield string;
    lat : jfield pyval;
    lng : jfield pyval;
    address : jfield pyval;
    amenities : jfield (list string);
    images : jfield images_dto }.

Definition empty_images : images_dto := mkImages Absent Absent.

Definition parse_amenities (amenities : list string) : Amenities.t :=
  Amenities.mk
    (map (fun a => strip (lower a))
         (filter (fun a => list_in (strip (lower a)) GENERAL_AMENITIES)
                 amenities))
    (map (fun a => strip (lower a))
         (filter (fun a => list_in (strip (lower a)) ROOM_AMENITIES)
                 amenities)).

Definition parse_image (img : image_dto) : result Image.t :=
  l <- getitem (url img) ;;
  c <- getitem (description img) ;;
  ok (Image.mk l c).

Definition parse_images (imgs : option images_dto)
           (k : images_dto -> jfield (list image_dto))
  : result (list Image.t) :=
  let d := match imgs with Some i => i | None => empty_images end in
  l <- iterable (get_default (k d) (Some [])) ;;
  mapM parse_image l.

Definition parse (d : dto) : result Hotel :=
  i <- getitem_str (id d) ;;
  dest <- getitem_id (destination d) ;;
  n <- getitem (name d) ;;
  descr <- getitem (info d) ;;
  la <- getitem_val (lat d) ;;
  lo <- getitem_val (lng d) ;;
  ad <- getitem_val (address d) ;;
  am <- getitem (amenities d) ;;
  imgs <- getitem (images d) ;;
  r <- parse_images imgs rooms ;;
  imgs' <- getitem (images d) ;;
  a <- parse_images imgs' amenities_imgs ;;
  ok (mkHotel i dest n (or_default descr "")
        (Location.mk la lo ad VNone VNone)
        (parse_amenities (or_default am []))
        (Images.mk r [] a)
        (Some [])).
End Patagonia.

(** ** The reconciliation engine *)

(** [list(set(l))]. The order in which a Python set hands out its elements
    is fixed by the hashes of the strings, not by the program; what the
    program can rely on is that every element of [l] comes out once. *)
Class PySet : Type := mkPySet
  { list_of_set : list string -> list string;
    list_of_set_perm :
      forall l, Permutation (list_of_set l) (nodup string_dec l) }.

(** One such order: each element at the place of its last occurrence. *)
Definition PySet_nodup : PySet :=
  {| list_of_set := nodup string_dec;
     list_of_set_perm := fun l => Permutation_refl _ |}.

(** A dict keeps its keys in insertion order. *)
Fixpoint dict_get {V} (k : string) (d : list (string * V)) : option V :=
  match d with
  | [] => None
  | (k', v) :: r => if String.eqb k k' then Some v else dict_get k r
  end.

(** [d[k] = v]: an old key keeps its place, a new key goes last. *)
Fixpoint dict_set {V} (k : string) (v : V) (d : list (string * V))
  : list (string * V) :=
  match d with
  | [] => [(k, v)]
  | (k', v') :: r =>
      if String.eqb k k' then (k, v) :: r else (k', v') :: dict_set k v r
  end.

Definition dict_values {V} (d : list (string * V)) : list V := map snd d.
Definition dict_keys {V} (d : list (string * V)) : list string := map fst d.

Record HotelsService : Type := mkService { hotels : list (string * Hotel) }.

(** [HotelsService()]. *)
Definition new_service : HotelsService := mkService [].

(** A method: the value it returns or the exception it raises, and the
    object afterwards. *)
Definition Method (A : Type) : Type := HotelsService -> result A * HotelsService.

Definition set_name (v : option string) (h : Hotel) : Hotel :=
  mkHotel (id h) (destination_id h) v (description h) (location h)
          (amenities h) (images h) (booking_conditions h).

Definition set_description (v : string) (h : Hotel) : Hotel :=
  mkHotel (id h) (destination_id h) (name h) v (location h)
          (amenities h) (images h) (booking_conditions h).

Definition set_location (v : Location.t) (h : Hotel) : Hotel :=
  mkHotel (id h) (destination_id h) (name h) (description h) v
          (amenities h) (images h) (booking_conditions h).

Definition set_amenities (v : Amenities.t) (h : Hotel) : Hotel :=
  mkHotel (id h) (destination_id h) (name h) (description h) (location h)
          v (images h) (booking_conditions h).

Definition set_images (v : Images.t) (h : Hotel) : Hotel :=
  mkHotel (id h) (destination_id h) (name h) (description h) (location h)
          (amenities h) v (booking_conditions h).

Definition set_booking_conditions (v : option (list string)) (h : Hotel)
  : Hotel :=
  mkHotel (id h) (destination_id h) (name h) (description h) (location h)
          (amenities h) (images h) v.

(** The dict comprehension that builds [newLocation]. *)
Definition new_location (existing hotel : Location.t)
  : list (Location.key * pyval) :=
  filter (fun kv =>
            negb (truthy (Location.getk (fst kv) existing))
            && truthy (Location.getk (fst kv) hotel))
         (Location.items hotel).

(** [e + [img for img in h if img not in e]]. *)
Definition append_new_images (e h : list Image.t) : list Image.t :=
  e ++ filter (fun img => negb (Image.mem img e)) h.

Section Merge.
Context {set_order : PySet}.

(** The [else] branch of the loop body: the assignments to [existing], one
    after the other. The last one adds two lists and raises [TypeError]
    when either is [None]; the fields assigned before stay assigned.

    Every assignment reads one field of [hotel] and writes the same field
    of [existing], so the outcome is the same when [hotel] and [existing]
    are one object. *)
Definition merge_existing (hotel existing : Hotel) : result unit * Hotel :=
  let existing := set_name (py_or (name hotel) (name existing)) existing in
  let existing :=
    if (String.length (description existing)
        <? String.length (description hotel))%nat
    then set_description (description hotel) existing
    else existing in
  let newLocation := new_location (location existing) (location hotel) in
  let existing :=
    set_location (Location.update (location existing) newLocation) existing in
  let existing :=
    set_amenities
      (Amenities.mk
         (list_of_set (Amenities.general (amenities existing)
                       ++ Amenities.general (amenities hotel)))
         (Amenities.room (amenities existing))) existing in
  let existing :=
    set_amenities
      (Amenities.mk
         (Amenities.general (amenities existing))
         (list_of_set (Amenities.room (amenities existing)
                       ++ Amenities.room (amenities hotel)))) existing in
  let existing :=
    set_images
      (Images.mk
         (append_new_images (Images.rooms (images existing))
                            (Images.rooms (images hotel)))
         (append_new_images (Images.site (images existing))
                            (Images.site (images hotel)))
         (append_new_images (Images.amenities (images existing))
                            (Images.amenities (images hotel)))) existing in
  match booking_conditions existing, booking_conditions hotel with
  | Some e, Some h =>
      (ok tt, set_booking_conditions (Some (list_of_set (e ++ h))) existing)
  | _, _ => (raise TypeError, existing)
  end.

(** One turn of the loop of [merge_and_save]. *)
Definition merge_one (hotel : Hotel) : Method unit :=
  fun self =>
    match dict_get (id hotel) (hotels self) with
    | None => (ok tt, mkService (dict_set (id hotel) hotel (hotels self)))
    | Some existing =>
        let (r, existing') := merge_existing hotel existing in
        (r, mkService (dict_set (id hotel) existing' (hotels self)))
    end.

Fixpoint merge_and_save (supplier_data : list Hotel) : Method unit :=
  fun self =>
    match supplier_data with
    | [] => (ok tt, self)
    | hotel :: rest =>
        match merge_one hotel self with
        | (inl e, self') => (inl e, self')
        | (inr _, self') => merge_and_save rest self'
        end
    end.
End Merge.

(** ** The query layer *)

(** [x in c] for the filters [find] is given: a set or list of strings, or
    one string (then [in] looks for a substring). *)
Class Contains (C : Type) := contains : string -> C -> bool.

#[global] Instance contains_list : Contains (list string) := list_in.
#[global] Instance contains_string : Contains string := str_in.

Definition find {C D} `{Truthy C} `{Contains C} `{Truthy D} `{Contains D}
           (hotel_ids : C) (destination_ids : D) : Method (list Hotel) :=
  fun self =>
    let filtered :=
      filter (fun hotel =>
                (negb (truthy hotel_ids) || contains (id hotel) hotel_ids)
                && (negb (truthy destination_ids)
                    || contains (py_str (destination_id hotel)) destination_ids))
             (dict_values (hotels self)) in
    (ok filtered, self).

(** ** Shapes of facility tokens *)

Fixpoint has_capital (s : string) : bool :=
  match s with
  | EmptyString => false
  | String c s' => is_upper c || has_capital s'
  end.

(** A capital letter after the first character: a camel-case boundary. *)
Definition has_inner_capital (s : string) : bool :=
  match s with
  | EmptyString => false
  | String _ s' => has_capital s'
  end.

(** The token without its spaces. *)
Fixpoint remove_spaces (s : string) : string :=
  match s with
  | EmptyString => EmptyString
  | String c s' =>
      if Ascii.eqb c " " then remove_spaces s' else String c (remove_spaces s')
  end.

(** ** The amenity invariant *)

Definition in_vocabulary (a : Amenities.t) : Prop :=
  Forall (fun x => In x GENERAL_AMENITIES) (Amenities.general a)
  /\ Forall (fun x => In x ROOM_AMENITIES) (Amenities.room a).

Definition no_duplicates (a : Amenities.t) : Prop :=
  NoDup (Amenities.general a) /\ NoDup (Amenities.room a).

(** ** Comparing a mapping before and after a merge *)

Definition same_elements (l l' : list string) : Prop :=
  forall x, In x l <-> In x l'.

(** The same hotel, but for the order and the repetitions in the lists that
    [merge_and_save] passes through a set. *)
Definition same_up_to_sets (h h' : Hotel) : Prop :=
  id h' = id h
  /\ destination_id h' = destination_id h
  /\ name h' = name h
  /\ description h' = description h
  /\ location h' = location h
  /\ images h' = images h
  /\ same_elements (Amenities.general (amenities h))
                   (Amenities.general (amenities h'))
  /\ same_elements (Amenities.room (amenities h))
                   (Amenities.room (amenities h'))
  /\ match booking_conditions h, booking_conditions h' with
     | Some b, Some b' => same_elements b b'
     | None, None => True
     | _, _ => False
     end.

Definition same_entry (e e' : string * Hotel) : Prop :=
  fst e = fst e' /\ same_up_to_sets (snd e) (snd e').

(** A hotel whose amenity lists and booking conditions came out of a set:
    each holds its elements once. *)
Definition rebuilt_through_sets (h : Hotel) : Prop :=
  NoDup (Amenities.general (amenities h))
  /\ NoDup (Amenities.room (amenities h))
  /\ exists b, booking_conditions h = Some b /\ NoDup b.

(** What [merge_and_save] maintains of [self.hotels]: no key twice, and every
    hotel under its own id. *)
Definition keyed_by_id (d : list (string * Hotel)) : Prop :=
  NoDup (dict_keys d) /\ Forall (fun e => fst e = id (snd e)) d.

(** ** Sample records

    Raw records in the three supplier shapes, used to run the code on. *)

(** An Acme record that carries its identifiers and nulls elsewhere. *)
Definition acme_null_dto : Acme.dto :=
  Acme.mkDto (Some "iJhz") (Val (IInt 5432)) Null Null Null Null Null Null
             Null Null Null.

(** A Paperflies record for the same hotel: no [location] and no
    [booking_conditions] key, nulls elsewhere. *)
Definition paperflies_null_dto : Paperflies.dto :=
  Paperflies.mkDto (Some "iJhz") (Val (IInt 5432)) Null Null Absent Null Null
                   Absent.

(** A Patagonia record for the same hotel, nulls elsewhere. *)
Definition patagonia_null_dto : Patagonia.dto :=
  Patagonia.mkDto (Some "iJhz") (Val (IInt 5432)) Null Null Null Null Null
                  Null Null.

Definition no_images : Images.t := Images.mk [] [] [].

(** What [Acme.parse] makes of [acme_null_dto]. *)
Definition acme_null_hotel : Hotel :=
  mkHotel "iJhz" (IInt 5432) None ""
          (Location.mk VNone VNone (VStr "") VNone VNone)
          (Amenities.mk [] []) no_images (Some []).

(** What [Paperflies.parse] makes of [paperflies_null_dto]. *)
Definition paperflies_null_hotel : Hotel :=
  mkHotel "iJhz" (IInt 5432) None ""
          (Location.mk VNone VNone VNone VNone VNone)
          (Amenities.mk [] []) no_images (Some []).

(** What [Patagonia.parse] makes of [patagonia_null_dto]. *)
Definition patagonia_null_hotel : Hotel :=
  mkHotel "iJhz" (IInt 5432) None ""
          (Location.mk VNone VNone VNone VNone VNone)
          (Amenities.mk [] []) no_images (Some []).

(** Two records of one hotel, as two suppliers could describe it. *)
Definition beach_villas_short : Hotel :=
  mkHotel "iJhz" (IInt 5432) (Some "Beach Villas") "short"
          (Location.mk VNone VNone (VStr "8 Sentosa Gateway") VNone
                       (VStr "SG"))
          (Amenities.mk ["outdoor pool"; "breakfast"] []) no_images (Some []).

Definition beach_villas_long : Hotel :=
  mkHotel "iJhz" (IInt 5432) (Some "Beach Villas Singapore")
          "much longer text"
          (Location.mk (VFloat 1.25) (VFloat 103.75) VNone
                       (VStr "Singapore") (VStr "Singapore"))
          (Amenities.mk ["outdoor pool"; "breakfast"] ["tv"; "aircon"])
          no_images (Some ["All children are welcome."]).

(** A Paperflies record whose pre-classified amenities name facilities
    outside the two vocabularies. *)
Definition paperflies_parking_dto : Paperflies.dto :=
  Paperflies.mkDto (Some "SjyX") (Val (IInt 5432)) (Val "InterContinental")
                   (Val "A classic hotel.") Absent
                   (Val (Amenities.mk ["indoor pool"; "parking"]
                                      ["tv"; "minibar"]))
                   Null Absent.

Definition paperflies_parking_hotel : Hotel :=
  mkHotel "SjyX" (IInt 5432) (Some "InterContinental") "A classic hotel."
          (Location.mk VNone VNone VNone VNone VNone)
          (Amenities.mk ["indoor pool"; "parking"] ["tv"; "minibar"])
          no_images (Some []).

(** An Acme record that lists one facility twice. *)
Definition acme_repeated_dto : Acme.dto :=
  Acme.mkDto (Some "SjyX") (Val (IInt 5432)) (Val "InterContinental")
             Null Null Null Null Null Null Null
             (Val ["Breakfast"; " Breakfast"; "Aircon"; "Aircon "]).

Definition acme_repeated_hotel : Hotel :=
  mkHotel "SjyX" (IInt 5432) (Some "InterContinental") ""
          (Location.mk VNone VNone (VStr "") VNone VNone)
          (Amenities.mk ["breakfast"; "breakfast"] ["aircon"; "aircon"])
          no_images (Some []).

(** The service after [acme_repeated_hotel] alone was merged and saved. *)
Definition acme_repeated_service : HotelsService :=
  mkService [("SjyX", acme_repeated_hotel)].

(** ** Fetching and the whole run *)

(** The comprehension of [BaseSupplier.fetch], on the records that
    [requests.get(url).json()] decoded: the first record that fails to parse
    raises, and no list is returned. *)
Definition fetch {dto} (parse : dto -> result Hotel) (json : list dto)
  : result (list Hotel) :=
  mapM parse json.

(** What the three endpoints answer, decoded. *)
Record Payloads : Type := mkPayloads
  { acme_json : list Acme.dto;
    paperflies_json : list Paperflies.dto;
    patagonia_json : list Patagonia.dto }.

(** [fetch_hotels], up to the list it hands to [json.dumps]: the suppliers are
    fetched in the order Acme, Paperflies, Patagonia, their hotels are merged
    into a new service in that order, and the service is queried. *)
Definition fetch_hotels {set_order : PySet}
           {C D} `{Truthy C} `{Contains C} `{Truthy D} `{Contains D}
           (net : Payloads) (hotel_ids : C) (destination_ids : D)
  : result (list Hotel) :=
  a <- fetch Acme.parse (acme_json net) ;;
  p <- fetch Paperflies.parse (paperflies_json net) ;;
  g <- fetch Patagonia.parse (patagonia_json net) ;;
  let all_supplier_data := a ++ p ++ g in
  let (r, svc) := merge_and_save all_supplier_data new_service in
  _ <- r ;;
  fst (find hotel_ids destination_ids svc).

(** The ids of a sequence of hotels, each at its first occurrence. *)
Definition first_seen (ids : list string) : list string :=
  rev (nodup string_dec (rev ids)).

(** The keys of a dict after [d[k] = v]. *)
Definition add_key (k : string) (keys : list string) : list string :=
  if in_dec string_dec k keys then keys else keys ++ [k].

(** A record like [beach_villas_long] from a supplier that sent a null for
    its booking conditions. *)
Definition beach_villas_no_conditions : Hotel :=
  set_booking_conditions None beach_villas_long.

(** How [merge_and_save] extends a sequence of images [e] by the images [h]
    of an incoming record, giving [m]. *)
Definition appended_without_known (e h m : list Image.t) : Prop :=
  (exists extra, m = e ++ extra /\ incl extra h)
  /\ (forall img, In img m <-> In img e \/ In img h)
  /\ (NoDup e -> NoDup h -> NoDup m).

(** An Acme record that has all the keys [Acme.parse] reads. *)
Definition acme_keys_present (d : Acme.dto) : Prop :=
  Acme.Id d <> None
  /\ Acme.DestinationId d <> Absent
  /\ Acme.Name d <> Absent
  /\ Acme.Description d <> Absent
  /\ Acme.Latitude d <> Absent
  /\ Acme.Longitude d <> Absent
  /\ Acme.Address d <> Absent
  /\ Acme.City d <> Absent
  /\ Acme.Country d <> Absent
  /\ Acme.PostalCode d <> Absent
  /\ Acme.Facilities d <> Absent.

(** The token as Acme's classifier looks it up. *)
Definition acme_token (amenity : string) : string :=
  camel_to_snake_case (strip amenity).

(** An Acme record with an address and a postal code that the address does
    not mention. *)
Definition acme_sentosa_dto : Acme.dto :=
  Acme.mkDto (Some "iJhz") (Val (IInt 5432)) (Val "Beach Villas Singapore")
             (Val "A beach resort.") (Val (VFloat 1.25)) (Val (VFloat 103.75))
             (Val " 8 Sentosa Gateway, Beach Villas ") (Val (VStr "Singapore"))
             (Val (VStr "SG")) (Val "098269")
             (Val ["Pool"; "BusinessCenter"; "WiFi"; "DryCleaning";
                   " Breakfast"]).

(** The token as Patagonia's classifier looks it up. *)
Definition patagonia_token (amenity : string) : string :=
  strip (lower amenity).

(** A Paperflies image in the canonical shape: the caption becomes the
    description. *)
Definition paperflies_image (img : Paperflies.image_dto) : Image.t :=
  Image.mk (get (Paperflies.link img)) (get (Paperflies.caption img)).

(** A Paperflies record with images of the rooms and none of the site. *)
Definition paperflies_images_dto : Paperflies.dto :=
  Paperflies.mkDto
    (Some "iJhz") (Val (IInt 5432)) (Val "Beach Villas Singapore")
    (Val "Surrounded by tropical gardens.")
    (Val (Paperflies.mkLocation (Val (VStr "8 Sentosa Gateway"))
                                (Val (VStr "Singapore"))))
    (Val (Amenities.mk ["outdoor pool"] ["tv"]))
    (Val (Paperflies.mkImages
            (Val [Paperflies.mkImage (Val "https://d2ey9sqrvkqdfs/2.jpg")
                                     (Val "Double room");
                  Paperflies.mkImage (Val "https://d2ey9sqrvkqdfs/3.jpg")
                                     Null])
            Absent))
    (Val ["All children are welcome."]).

(** A Patagonia record of the same hotel. *)
Definition patagonia_sentosa_dto : Patagonia.dto :=
  Patagonia.mkDto (Some "iJhz") (Val (IInt 5432)) (Val "Beach Villas")
                  Null (Val (VFloat 1.25)) (Val (VFloat 103.75))
                  (Val (VStr "8 Sentosa Gateway")) (Val ["Aircon"; " Tv"])
                  Null.

(** A Paperflies record whose [location] is null. *)
Definition paperflies_null_location_dto : Paperflies.dto :=
  Paperflies.mkDto (Some "iJhz") (Val (IInt 5432)) Null Null Null Null Null
                   Absent.

(** The hotels the adapters make of the sample records above. *)
Definition acme_sentosa_hotel : Hotel :=
  Eval cbv in
    match Acme.parse acme_sentosa_dto with
    | inr h => h
    | inl _ => acme_null_hotel
    end.

Definition paperflies_images_hotel : Hotel :=
  Eval cbv in
    match Paperflies.parse paperflies_images_dto with
    | inr h => h
    | inl _ => paperflies_null_hotel
    end.

Definition patagonia_sentosa_hotel : Hotel :=
  Eval cbv in
    match Patagonia.parse patagonia_sentosa_dto with
    | inr h => h
    | inl _ => patagonia_null_hotel
    end.

(** One answer of the three endpoints. *)
Definition sample_payloads : Payloads :=
  mkPayloads [acme_sentosa_dto; acme_repeated_dto] [paperflies_images_dto]
             [patagonia_sentosa_dto].

(** What [fetch_hotels] returns on it for two empty arguments, with the set
    order [PySet_nodup]. *)
Definition sample_run : list Hotel :=
  Eval cbv in
    match @fetch_hotels PySet_nodup string string _ _ _ _
                        sample_payloads "" "" with
    | inr l => l
    | inl _ => []
    end.

(** A record that lists one picture of a room twice. *)
Definition double_room_image : Image.t :=
  Image.mk (Some "https://d2ey9sqrvkqdfs/2.jpg") (Some "Double room").

Definition beach_villas_pictured_twice : Hotel :=
  set_images (Images.mk [double_room_image; double_room_image] [] [])
             beach_villas_long.

(** A service that holds [beach_villas_short] alone. *)
Definition beach_villas_service : HotelsService :=
  mkService [("iJhz", beach_villas_short)].

(** The images object of [paperflies_images_dto]. *)
Definition paperflies_sample_images : Paperflies.images_dto :=
  Paperflies.mkImages
    (Val [Paperflies.mkImage (Val "https://d2ey9sqrvkqdfs/2.jpg")
                             (Val "Double room");
          Paperflies.mkImage (Val "https://d2ey9sqrvkqdfs/3.jpg") Null])
    Absent.

(** An Acme record like [acme_null_dto] that lacks the [Name] key. *)
Definition acme_nameless_dto : Acme.dto :=
  Acme.mkDto (Some "iJhz") (Val (IInt 5432)) Absent Null Null Null Null Null
             Null Null Null.

(** * Properties *)

(** ** Dicts *)

Section Dict.
Context {V : Type}.
Implicit Types (k : string) (v : V) (d : list (string * V)).

Lemma dict_get_set_same k v d : dict_get k (dict_set k v d) = Some v.
Proof.
  induction d as [|[k' v'] r IH]; simpl.
  - now rewrite String.eqb_refl.
  - destruct (String.eqb k k') eqn:E; simpl.
    + now rewrite String.eqb_refl.
    + now rewrite E.
Qed.

Lemma dict_get_set_other k k0 v d :
  k0 <> k -> dict_get k0 (dict_set k v d) = dict_get k0 d.
Proof.
  intros N. induction d as [|[k' v'] r IH]; simpl.
  - apply String.eqb_neq in N. now rewrite N.
  - destruct (String.eqb k k') eqn:E; simpl.
    + apply String.eqb_eq in E. subst k'.
      apply String.eqb_neq in N. now rewrite N.
    + now rewrite IH.
Qed.

Lemma dict_get_app_fresh k d1 d2 :
  ~ In k (dict_keys d1) -> dict_get k (d1 ++ d2) = dict_get k d2.
Proof.
  induction d1 as [|[k' v'] r IH]; simpl; intros N; [reflexivity|].
  destruct (String.eqb k k') eqn:E.
  - apply String.eqb_eq in E. subst. tauto.
  - apply IH. tauto.
Qed.

Lemma dict_set_app_fresh k v v0 d1 d2 :
  ~ In k (dict_keys d1) ->
  dict_set k v (d1 ++ (k, v0) :: d2) = d1 ++ (k, v) :: d2.
Proof.
  induction d1 as [|[k' v'] r IH]; simpl; intros N.
  - now rewrite String.eqb_refl.
  - destruct (String.eqb k k') eqn:E.
    + apply String.eqb_eq in E. subst. tauto.
    + rewrite IH; tauto.
Qed.

Lemma dict_get_In k v d : dict_get k d = Some v -> In (k, v) d.
Proof.
  induction d as [|[k' v'] r IH]; simpl; [discriminate|].
  destruct (String.eqb k k') eqn:E; intros H.
  - apply String.eqb_eq in E. injection H as ->. subst. now left.
  - right. now apply IH.
Qed.

Lemma dict_get_None k d : dict_get k d = None -> ~ In k (dict_keys d).
Proof.
  induction d as [|[k' v'] r IH]; simpl; [tauto|].
  destruct (String.eqb k k') eqn:E; [discriminate|].
  apply String.eqb_neq in E. intros H [A|A]; [congruence|].
  now apply IH.
Qed.

Lemma dict_keys_set_old k v v0 d :
  dict_get k d = Some v0 -> dict_keys (dict_set k v d) = dict_keys d.
Proof.
  induction d as [|[k' v'] r IH]; simpl; [discriminate|].
  destruct (String.eqb k k') eqn:E; simpl; intros H.
  - apply String.eqb_eq in E. now subst.
  - now rewrite IH.
Qed.

Lemma dict_set_new k v d :
  dict_get k d = None -> dict_set k v d = d ++ [(k, v)].
Proof.
  induction d as [|[k' v'] r IH]; simpl; [reflexivity|].
  destruct (String.eqb k k') eqn:E; [discriminate|].
  intros H. now rewrite IH.
Qed.

Lemma dict_set_In k v d kv :
  In kv (dict_set k v d) -> kv = (k, v) \/ In kv d.
Proof.
  induction d as [|[k' v'] r IH]; simpl.
  - intros [H|[]]. now left.
  - destruct (String.eqb k k'); simpl; intros [H|H]; auto.
    destruct (IH H); auto.
Qed.
End Dict.

(** ** The assignments of [merge_existing], field by field *)

Section MergeFields.
Context {set_order : PySet}.
Implicit Types hotel existing : Hotel.

(** [existing] after the assignments, and the exception if one is raised. *)
Lemma merge_existing_eq hotel existing :
  merge_existing hotel existing
  = (match booking_conditions existing, booking_conditions hotel with
     | Some _, Some _ => ok tt
     | _, _ => raise TypeError
     end,
     mkHotel
       (id existing)
       (destination_id existing)
       (py_or (name hotel) (name existing))
       (if (String.length (description existing)
            <? String.length (description hotel))%nat
        then description hotel else description existing)
       (Location.update (location existing)
          (new_location (location existing) (location hotel)))
       (Amenities.mk
          (list_of_set (Amenities.general (amenities existing)
                        ++ Amenities.general (amenities hotel)))
          (list_of_set (Amenities.room (amenities existing)
                        ++ Amenities.room (amenities hotel))))
       (Images.mk
          (append_new_images (Images.rooms (images existing))
                             (Images.rooms (images hotel)))
          (append_new_images (Images.site (images existing))
                             (Images.site (images hotel)))
          (append_new_images (Images.amenities (images existing))
                             (Images.amenities (images hotel))))
       (match booking_conditions existing, booking_conditions hotel with
        | Some e, Some h => Some (list_of_set (e ++ h))
        | _, _ => booking_conditions existing
        end)).
Proof.
  destruct existing as [i d n de l a im b], hotel as [i' d' n' de' l' a' im' b'].
  unfold merge_existing. cbv zeta.
  cbn [set_name id destination_id name description location amenities
       images booking_conditions].
  destruct (String.length de <? String.length de')%nat;
    destruct b, b'; reflexivity.
Qed.

Lemma merge_existing_id hotel existing :
  id (snd (merge_existing hotel existing)) = id existing.
Proof. now rewrite merge_existing_eq. Qed.

Lemma merge_existing_destination_id hotel existing :
  destination_id (snd (merge_existing hotel existing))
  = destination_id existing.
Proof. now rewrite merge_existing_eq. Qed.

Lemma merge_existing_name hotel existing :
  name (snd (merge_existing hotel existing))
  = py_or (name hotel) (name existing).
Proof. now rewrite merge_existing_eq. Qed.

Lemma merge_existing_description hotel existing :
  description (snd (merge_existing hotel existing))
  = if (String.length (description existing)
        <? String.length (description hotel))%nat
    then description hotel else description existing.
Proof. now rewrite merge_existing_eq. Qed.

Lemma merge_existing_location hotel existing :
  location (snd (merge_existing hotel existing))
  = Location.update (location existing)
      (new_location (location existing) (location hotel)).
Proof. now rewrite merge_existing_eq. Qed.

Lemma merge_existing_amenities hotel existing :
  amenities (snd (merge_existing hotel existing))
  = Amenities.mk
      (list_of_set (Amenities.general (amenities existing)
                    ++ Amenities.general (amenities hotel)))
      (list_of_set (Amenities.room (amenities existing)
                    ++ Amenities.room (amenities hotel))).
Proof. now rewrite merge_existing_eq. Qed.

Lemma merge_existing_images hotel existing :
  images (snd (merge_existing hotel existing))
  = Images.mk
      (append_new_images (Images.rooms (images existing))
                         (Images.rooms (images hotel)))
      (append_new_images (Images.site (images existing))
                         (Images.site (images hotel)))
      (append_new_images (Images.amenities (images existing))
                         (Images.amenities (images hotel))).
Proof. now rewrite merge_existing_eq. Qed.

Lemma merge_existing_booking_conditions hotel existing :
  booking_conditions (snd (merge_existing hotel existing))
  = match booking_conditions existing, booking_conditions hotel with
    | Some e, Some h => Some (list_of_set (e ++ h))
    | _, _ => booking_conditions existing
    end.
Proof. now rewrite merge_existing_eq. Qed.
End MergeFields.

(** ** Merging two records of one hotel *)

Section Claims.
Context {set_order : PySet}.

(** The value a location field ends with: the incoming one when the existing
    one is falsy and the incoming one is not. *)
Lemma location_update_getk (k : Location.key) (e h : Location.t) :
  Location.getk k (Location.update e (new_location e h))
  = if negb (truthy (Location.getk k e)) && truthy (Location.getk k h)
    then Location.getk k h else Location.getk k e.
Proof.
  destruct e as [a1 a2 a3 a4 a5], h as [b1 b2 b3 b4 b5].
  unfold new_location, Location.update, Location.items.
  destruct k;
    cbn [filter fst snd Location.getk Location.lat Location.lng
         Location.address Location.city Location.country];
    destruct (negb (truthy a1) && truthy b1);
    destruct (negb (truthy a2) && truthy b2);
    destruct (negb (truthy a3) && truthy b3);
    destruct (negb (truthy a4) && truthy b4);
    destruct (negb (truthy a5) && truthy b5);
    reflexivity.
Qed.

(** Two records with one id, merged into an empty service: the first is
    registered, the second is merged into it. *)
Lemma merge_and_save_pair (a b : Hotel) :
  id a = id b ->
  merge_and_save [a; b] new_service
  = (fst (merge_existing b a),
     mkService [(id a, snd (merge_existing b a))]).
Proof.
  intros E. unfold merge_and_save, merge_one, new_service.
  cbn [hotels dict_get dict_set].
  rewrite <- E, String.eqb_refl.
  destruct (merge_existing b a) as [[e|[]] m]; reflexivity.
Qed.

(** What [merge_and_save] keeps of a registered hotel, whatever follows:
    any property that one merge keeps. *)
Lemma merge_and_save_keeps (P : Hotel -> Prop) :
  (forall hotel existing, P existing -> P (snd (merge_existing hotel existing))) ->
  forall supplier_data self k h,
    dict_get k (hotels self) = Some h -> P h ->
    exists h', dict_get k (hotels (snd (merge_and_save supplier_data self)))
               = Some h' /\ P h'.
Proof.
  intros HP supplier_data.
  induction supplier_data as [|hotel rest IH]; intros self k h G Ph.
  - exists h. now split.
  - cbn [merge_and_save].
    assert (exists h1, dict_get k (hotels (snd (merge_one hotel self))) = Some h1
                       /\ P h1) as (h1 & G1 & P1).
    { unfold merge_one.
      destruct (dict_get (id hotel) (hotels self)) as [existing|] eqn:Ge.
      - destruct (merge_existing hotel existing) as [r e'] eqn:M.
        cbn [snd hotels].
        destruct (String.eqb k (id hotel)) eqn:K.
        + apply String.eqb_eq in K. subst k.
          rewrite dict_get_set_same. exists e'. split; [reflexivity|].
          replace e' with (snd (merge_existing hotel existing))
            by now rewrite M.
          apply HP. congruence.
        + apply String.eqb_neq in K.
          rewrite dict_get_set_other by assumption. now exists h.
      - cbn [snd hotels].
        destruct (String.eqb k (id hotel)) eqn:K.
        + apply String.eqb_eq in K. subst k. congruence.
        + apply String.eqb_neq in K.
          rewrite dict_get_set_other by assumption. now exists h. }
    destruct (merge_one hotel self) as [[e|u] self'].
    + exists h1. now split.
    + now apply (IH self' k h1).
Qed.

(** C1 (amended). Merging a second record into the first one of the same id
    fills each location field on its own: a present (truthy) existing value is
    kept; an absent one is replaced by the incoming value when that one is
    present, and stays as it is when the incoming value is absent too. A
    field that is present after the merge keeps its value through every
    later [merge_and_save]. *)
Theorem location_fill_first_present_wins (a b : Hotel) (k : Location.key) :
  id a = id b ->
  exists m,
    dict_get (id a) (hotels (snd (merge_and_save [a; b] new_service))) = Some m
    /\ Location.getk k (location m)
       = (if truthy (Location.getk k (location a))
          then Location.getk k (location a)
          else if truthy (Location.getk k (location b))
               then Location.getk k (location b)
               else Location.getk k (location a))
    /\ forall later,
        truthy (Location.getk k (location m)) = true ->
        exists m',
          dict_get (id a)
            (hotels (snd (merge_and_save later
                            (snd (merge_and_save [a; b] new_service)))))
          = Some m'
          /\ Location.getk k (location m') = Location.getk k (location m).
Proof.
  intros E. rewrite (merge_and_save_pair a b E). cbn [snd hotels dict_get].
  rewrite String.eqb_refl. eexists. split; [reflexivity|]. split.
  - rewrite merge_existing_location, location_update_getk.
    destruct (truthy (Location.getk k (location a)));
      destruct (truthy (Location.getk k (location b))); reflexivity.
  - intros later T.
    set (m := snd (merge_existing b a)) in *.
    assert (HP : forall hotel existing,
               Location.getk k (location existing)
               = Location.getk k (location m) ->
               Location.getk k (location (snd (merge_existing hotel existing)))
               = Location.getk k (location m)).
    { intros hotel existing Pe.
      rewrite merge_existing_location, location_update_getk, Pe, T.
      reflexivity. }
    destruct (merge_and_save_keeps _ HP later (mkService [(id a, m)])
                                   (id a) m)
      as (m' & G & P).
    + cbn [hotels dict_get]. now rewrite String.eqb_refl.
    + reflexivity.
    + now exists m'.
Qed.

(** C2. Of two records with one id the merged description is the longer one,
    the existing one on a tie; when the lengths differ the result is the same
    whichever record comes first. *)
Theorem description_longer_wins (a b : Hotel) :
  id a = id b ->
  exists m m',
    dict_get (id a) (hotels (snd (merge_and_save [a; b] new_service))) = Some m
    /\ dict_get (id a) (hotels (snd (merge_and_save [b; a] new_service)))
       = Some m'
    /\ description m
       = (if (String.length (description a)
              <? String.length (description b))%nat
          then description b else description a)
    /\ (String.length (description a) <> String.length (description b) ->
        description m' = description m).
Proof.
  intros E.
  rewrite (merge_and_save_pair a b E), (merge_and_save_pair b a (eq_sym E)).
  cbn [snd hotels dict_get]. rewrite <- E, String.eqb_refl.
  do 2 eexists. repeat split; try reflexivity.
  - apply merge_existing_description.
  - intros N. rewrite !merge_existing_description.
    destruct (Nat.ltb_spec (String.length (description a))
                           (String.length (description b)));
      destruct (Nat.ltb_spec (String.length (description b))
                             (String.length (description a)));
      try reflexivity; lia.
Qed.

(** C3. When a second record arrives for a known id, the merged name is the
    incoming name if that is a non-empty string, and the existing name
    otherwise (incoming name empty or [None]). *)
Theorem name_later_non_empty_wins (a b : Hotel) :
  id a = id b ->
  exists m,
    dict_get (id a) (hotels (snd (merge_and_save [a; b] new_service))) = Some m
    /\ name m = match name b with
                | Some (String _ _) => name b
                | Some EmptyString | None => name a
                end.
Proof.
  intros E. rewrite (merge_and_save_pair a b E). cbn [snd hotels dict_get].
  rewrite String.eqb_refl. eexists. split; [reflexivity|].
  rewrite merge_existing_name. unfold py_or.
  destruct (name b) as [[|c s]|]; reflexivity.
Qed.

(** C8. Once a record is registered under its id, no later merge alters the
    [id] or the [destination_id] of that entry: both are those of the first
    record registered for the id. *)
Theorem id_and_destination_first_wins
        (self : HotelsService) (first : Hotel) (rest : list Hotel) :
  dict_get (id first) (hotels self) = None ->
  dict_get (id first) (hotels (snd (merge_one first self))) = Some first
  /\ exists h,
      dict_get (id first) (hotels (snd (merge_and_save (first :: rest) self)))
      = Some h
      /\ id h = id first
      /\ destination_id h = destination_id first.
Proof.
  intros N.
  assert (R : merge_one first self
              = (ok tt, mkService (dict_set (id first) first (hotels self)))).
  { unfold merge_one. now rewrite N. }
  split.
  - rewrite R. cbn [snd hotels]. apply dict_get_set_same.
  - cbn [merge_and_save]. rewrite R. unfold ok.
    assert (HP : forall hotel existing,
               id existing = id first
               /\ destination_id existing = destination_id first ->
               id (snd (merge_existing hotel existing)) = id first
               /\ destination_id (snd (merge_existing hotel existing))
                  = destination_id first).
    { intros hotel existing [Pi Pd].
      now rewrite merge_existing_id, merge_existing_destination_id. }
    destruct (merge_and_save_keeps _ HP rest
                (mkService (dict_set (id first) first (hotels self)))
                (id first) first)
      as (h & G & P).
    + cbn [hotels]. apply dict_get_set_same.
    + now split.
    + now exists h.
Qed.

End Claims.

(** ** The query layer *)

Lemma list_in_In (x : string) (l : list string) :
  list_in x l = true <-> In x l.
Proof.
  unfold list_in. rewrite existsb_exists. split.
  - intros (y & I & E). apply String.eqb_eq in E. now subst.
  - intros I. exists x. split; [assumption | apply String.eqb_refl].
Qed.

Lemma falsy_list_nil {A} (l : list A) : negb (truthy l) = true <-> l = [].
Proof. destruct l; cbn; split; intros; congruence. Qed.

(** C7. With two sets of strings as filters, [find] returns the hotels of the
    mapping whose id is in [hotel_ids] (or [hotel_ids] is empty) and whose
    [str(destination_id)] is in [destination_ids] (or that is empty); with no
    [hotel_ids] and some [destination_ids] it returns exactly the hotels
    whose destination matches. *)
Theorem find_filters_by_id_and_destination
        (self : HotelsService) (hotel_ids destination_ids : list string) :
  exists found,
    fst (find hotel_ids destination_ids self) = ok found
    /\ (forall h,
          In h found <->
          In h (dict_values (hotels self))
          /\ (hotel_ids = [] \/ In (id h) hotel_ids)
          /\ (destination_ids = []
              \/ In (py_str (destination_id h)) destination_ids))
    /\ (hotel_ids = [] -> destination_ids <> [] ->
        found = filter (fun h => list_in (py_str (destination_id h))
                                        destination_ids)
                       (dict_values (hotels self))).
Proof.
  eexists. split; [reflexivity|]. split.
  - intros h. rewrite filter_In, andb_true_iff, !orb_true_iff.
    unfold contains, contains_list.
    rewrite !falsy_list_nil, !list_in_In. reflexivity.
  - intros -> N. apply filter_ext. intros h.
    destruct destination_ids; [congruence|]. reflexivity.
Qed.

(** C9. [find] is a read-only query: whatever the filters, the service object
    after the call is the one before it, so the mapping has the same keys and
    the same hotels, field for field. *)
Theorem find_leaves_service_unchanged
        {C D} `{Truthy C} `{Contains C} `{Truthy D} `{Contains D}
        (hotel_ids : C) (destination_ids : D) (self : HotelsService) :
  snd (find hotel_ids destination_ids self) = self
  /\ dict_keys (hotels (snd (find hotel_ids destination_ids self)))
     = dict_keys (hotels self)
  /\ dict_values (hotels (snd (find hotel_ids destination_ids self)))
     = dict_values (hotels self).
Proof. repeat split. Qed.

(** ** The compound-word normalizer *)

Lemma lower_length (s : string) : String.length (lower s) = String.length s.
Proof. induction s; cbn; congruence. Qed.

Lemma lower_app (s1 s2 : string) :
  lower (s1 ++ s2) = (lower s1 ++ lower s2)%string.
Proof. induction s1; cbn; congruence. Qed.

Lemma space_capitals_app (s1 s2 : string) :
  space_capitals (s1 ++ s2)
  = (space_capitals s1 ++ space_capitals s2)%string.
Proof.
  induction s1 as [|c s1 IH]; cbn; [reflexivity|].
  destruct (is_upper c); cbn; now rewrite IH.
Qed.

Lemma space_capitals_length (s : string) :
  String.length s <= String.length (space_capitals s)
  /\ (has_capital s = true ->
      String.length s < String.length (space_capitals s)).
Proof.
  induction s as [|c s [IH1 IH2]]; cbn.
  - split; [lia | discriminate].
  - destruct (is_upper c); cbn; split; intros; try lia.
    apply IH2 in H. lia.
Qed.

Lemma has_capital_app (s1 s2 : string) (u : ascii) :
  is_upper u = true -> has_capital (s1 ++ String u s2) = true.
Proof.
  intros U. induction s1 as [|c s1 IH]; cbn.
  - now rewrite U.
  - rewrite IH. apply orb_true_r.
Qed.

(** Lower-casing makes no character a space and leaves a space one. *)
Lemma lower_char_is_space (c : ascii) :
  Ascii.eqb (lower_char c) " " = Ascii.eqb c " ".
Proof. destruct c as [[] [] [] [] [] [] [] []]; reflexivity. Qed.

Lemma remove_spaces_lower_space_capitals (s : string) :
  remove_spaces (lower (space_capitals s)) = remove_spaces (lower s).
Proof.
  induction s as [|c s IH]; cbn; [reflexivity|].
  destruct (is_upper c); cbn; rewrite IH; reflexivity.
Qed.

(** The normalizer changes a token by spaces and letter case only. *)
Lemma remove_spaces_camel_to_snake_case (s : string) :
  remove_spaces (camel_to_snake_case s) = remove_spaces (lower s).
Proof.
  destruct s as [|c s]; cbn; [reflexivity|].
  now rewrite remove_spaces_lower_space_capitals.
Qed.

Lemma camel_to_snake_case_longer (s : string) :
  has_inner_capital s = true ->
  String.length (lower s) < String.length (camel_to_snake_case s).
Proof.
  destruct s as [|c s]; cbn; [discriminate|]. intros C.
  rewrite !lower_length. apply space_capitals_length in C. lia.
Qed.

(** No two entries of the vocabularies differ by spaces only, so a token that
    spells an entry but for a camel-case boundary is normalized to no
    entry. *)
Lemma inner_capital_not_in_vocabulary (s : string) :
  In (lower s) (GENERAL_AMENITIES ++ ROOM_AMENITIES) ->
  has_inner_capital s = true ->
  ~ In (camel_to_snake_case s) (GENERAL_AMENITIES ++ ROOM_AMENITIES).
Proof.
  intros I1 C I2.
  pose proof (remove_spaces_camel_to_snake_case s) as RS.
  pose proof (camel_to_snake_case_longer s C) as LEN.
  cbn [GENERAL_AMENITIES ROOM_AMENITIES app In] in I1, I2.
  repeat (destruct I1 as [I1|I1]; [|try contradiction]);
    rewrite <- I1 in *;
    repeat (destruct I2 as [I2|I2]; [|try contradiction]);
    rewrite <- I2 in *;
    first [ vm_compute in RS; discriminate RS | cbn in LEN; lia ].
Qed.

(** C10. The normalizer puts a space before every capital letter but the
    first and lower-cases the result; so a facility token that spells a
    vocabulary entry with a camel-case boundary where the entry has no space
    (as ["WiFi"] does for ["wifi"], normalized to ["wi fi"]) matches neither
    vocabulary and [Acme.parse]'s classifier drops it. *)
Theorem camel_case_boundary_token_is_dropped
        (amenity : string) (c u : ascii) (s1 s2 : string) :
  strip amenity = String c (s1 ++ String u s2) ->
  is_upper u = true ->
  list_in (lower (strip amenity)) (GENERAL_AMENITIES ++ ROOM_AMENITIES) = true ->
  camel_to_snake_case (strip amenity)
  = (lower (String c (space_capitals s1))
     ++ String " " (lower (String u (space_capitals s2))))%string
  /\ list_in (camel_to_snake_case (strip amenity)) GENERAL_AMENITIES = false
  /\ list_in (camel_to_snake_case (strip amenity)) ROOM_AMENITIES = false
  /\ Acme.parse_amenities [amenity] = Amenities.mk [] [].
Proof.
  intros S U V.
  assert (C : has_inner_capital (strip amenity) = true).
  { rewrite S. cbn. now apply has_capital_app. }
  apply list_in_In in V.
  pose proof (inner_capital_not_in_vocabulary _ V C) as N.
  assert (G : list_in (camel_to_snake_case (strip amenity)) GENERAL_AMENITIES
              = false).
  { destruct (list_in _ GENERAL_AMENITIES) eqn:E; [|reflexivity].
    apply list_in_In in E. exfalso. apply N, in_or_app. now left. }
  assert (R : list_in (camel_to_snake_case (strip amenity)) ROOM_AMENITIES
              = false).
  { destruct (list_in _ ROOM_AMENITIES) eqn:E; [|reflexivity].
    apply list_in_In in E. exfalso. apply N, in_or_app. now right. }
  repeat split; try assumption.
  - rewrite S. unfold camel_to_snake_case, re_sub_capitals.
    rewrite space_capitals_app. cbn [space_capitals]. rewrite U.
    change (String c (space_capitals s1 ++ String " " (String u (space_capitals s2))))%string
      with (String c (space_capitals s1) ++ String " " (String u (space_capitals s2)))%string.
    rewrite lower_app. reflexivity.
  - unfold Acme.parse_amenities. cbn [Acme.parse_amenities_loop].
    now rewrite G, R.
Qed.

(** ** Supplier adapters *)

(** Reads a successful chain of binds from its head: every step returned. *)
Ltac invert_binds H :=
  repeat
    (cbv zeta in H;
     match type of H with
     | rbind ?m _ = _ =>
         let E := fresh "E" in
         destruct m eqn:E; cbn [rbind] in H; [discriminate H|]
     end).

Lemma getitem_ok {A} (f : jfield A) (o : option A) :
  getitem f = ok o -> o = get f /\ f <> Absent.
Proof. destruct f; cbn; intros E; inversion E; split; congruence. Qed.

Lemma or_default_string (o : option string) :
  or_default o "" = match o with Some s => s | None => "" end.
Proof. destruct o as [[|c s]|]; reflexivity. Qed.

Lemma or_default_list {A} (o : option (list A)) :
  or_default o [] = match o with Some l => l | None => [] end.
Proof. destruct o as [[|x l]|]; reflexivity. Qed.

Lemma acme_parse_ok (d : Acme.dto) (h : Hotel) :
  Acme.parse d = ok h ->
  name h = get (Acme.Name d)
  /\ description h
     = match get (Acme.Description d) with Some s => s | None => "" end
  /\ amenities h
     = Acme.parse_amenities
         (match get (Acme.Facilities d) with Some l => l | None => [] end)
  /\ images h = no_images
  /\ booking_conditions h = Some [].
Proof.
  unfold Acme.parse. intros P. invert_binds P.
  injection P as <-. cbn [name description amenities images booking_conditions].
  repeat match goal with
         | E : getitem _ = inr _ |- _ => apply getitem_ok in E; destruct E as [-> _]
         end.
  rewrite or_default_string, or_default_list. repeat split.
Qed.

Lemma paperflies_parse_images_null :
  Paperflies.parse_images None Paperflies.rooms = ok []
  /\ Paperflies.parse_images None Paperflies.site = ok [].
Proof. split; reflexivity. Qed.

Lemma patagonia_parse_images_null :
  Patagonia.parse_images None Patagonia.rooms = ok []
  /\ Patagonia.parse_images None Patagonia.amenities_imgs = ok [].
Proof. split; reflexivity. Qed.

Lemma paperflies_parse_ok (d : Paperflies.dto) (h : Hotel) :
  Paperflies.parse d = ok h ->
  name h = get (Paperflies.hotel_name d)
  /\ description h
     = match get (Paperflies.details d) with Some s => s | None => "" end
  /\ amenities h
     = match get (Paperflies.amenities d) with
       | Some a => a
       | None => Amenities.mk [] []
       end
  /\ (Paperflies.images d = Null -> images h = no_images)
  /\ booking_conditions h
     = get_default (Paperflies.booking_conditions d) (Some []).
Proof.
  unfold Paperflies.parse. intros P. invert_binds P.
  injection P as <-. cbn [name description amenities images booking_conditions].
  repeat match goal with
         | E : getitem _ = inr _ |- _ =>
             pose proof (proj1 (getitem_ok _ _ E)); clear E
         end.
  subst. rewrite or_default_string. repeat split.
  intros N. rewrite N in *. cbn [get get_default] in *.
  destruct paperflies_parse_images_null as [R S].
  unfold no_images. unfold ok in *. congruence.
Qed.

Lemma patagonia_parse_ok (d : Patagonia.dto) (h : Hotel) :
  Patagonia.parse d = ok h ->
  name h = get (Patagonia.name d)
  /\ description h
     = match get (Patagonia.info d) with Some s => s | None => "" end
  /\ amenities h
     = Patagonia.parse_amenities
         (match get (Patagonia.amenities d) with Some l => l | None => [] end)
  /\ (Patagonia.images d = Null -> images h = no_images)
  /\ booking_conditions h = Some [].
Proof.
  unfold Patagonia.parse. intros P. invert_binds P.
  injection P as <-. cbn [name description amenities images booking_conditions].
  repeat match goal with
         | E : getitem _ = inr _ |- _ =>
             pose proof (proj1 (getitem_ok _ _ E)); clear E
         end.
  subst. rewrite or_default_string, or_default_list. repeat split.
  intros N. rewrite N in *. cbn [get get_default] in *.
  destruct patagonia_parse_images_null as [R S].
  unfold no_images. unfold ok in *. congruence.
Qed.

(** The loop of Acme's classifier only ever appends vocabulary entries. *)
Lemma acme_loop_in_vocabulary (facilities general room : list string) :
  Forall (fun x => In x GENERAL_AMENITIES) general ->
  Forall (fun x => In x ROOM_AMENITIES) room ->
  Forall (fun x => In x GENERAL_AMENITIES)
         (fst (Acme.parse_amenities_loop facilities general room))
  /\ Forall (fun x => In x ROOM_AMENITIES)
            (snd (Acme.parse_amenities_loop facilities general room)).
Proof.
  revert general room.
  induction facilities as [|amenity rest IH]; intros general room G R.
  - now split.
  - cbn [Acme.parse_amenities_loop]. apply IH.
    + destruct (list_in _ GENERAL_AMENITIES) eqn:E; [|assumption].
      apply Forall_app. split; [assumption|].
      constructor; [now apply list_in_In | constructor].
    + destruct (list_in _ ROOM_AMENITIES) eqn:E; [|assumption].
      apply Forall_app. split; [assumption|].
      constructor; [now apply list_in_In | constructor].
Qed.

Lemma acme_parse_amenities_in_vocabulary (facilities : list string) :
  in_vocabulary (Acme.parse_amenities facilities).
Proof.
  unfold Acme.parse_amenities, in_vocabulary.
  pose proof (acme_loop_in_vocabulary facilities [] []
                (Forall_nil _) (Forall_nil _)) as [G R].
  destruct (Acme.parse_amenities_loop facilities [] []). now split.
Qed.

Lemma map_filter_in_vocabulary (f : string -> string) (v l : list string) :
  Forall (fun x => In x v) (map f (filter (fun a => list_in (f a) v) l)).
Proof.
  apply Forall_forall. intros x I.
  apply in_map_iff in I as (a & <- & I).
  apply filter_In in I as [_ I]. now apply list_in_In.
Qed.

Lemma patagonia_parse_amenities_in_vocabulary (l : list string) :
  in_vocabulary (Patagonia.parse_amenities l).
Proof. split; apply map_filter_in_vocabulary. Qed.

(** [list(set(l))]: the elements of [l], each once. *)
Lemma list_of_set_In {set_order : PySet} (x : string) (l : list string) :
  In x (list_of_set l) <-> In x l.
Proof.
  rewrite <- (nodup_In string_dec l x). split; apply Permutation_in.
  - apply list_of_set_perm.
  - apply Permutation_sym, list_of_set_perm.
Qed.

Lemma list_of_set_NoDup {set_order : PySet} (l : list string) :
  NoDup (list_of_set l).
Proof.
  apply (Permutation_NoDup (Permutation_sym (list_of_set_perm l))).
  apply NoDup_nodup.
Qed.

(** C5 (counterexample). Paperflies hands on amenities that are in neither
    vocabulary, and Acme's classifier keeps a facility that is listed
    twice. *)
Lemma amenities_invariant_counterexample :
  Paperflies.parse paperflies_parking_dto = ok paperflies_parking_hotel
  /\ ~ in_vocabulary (amenities paperflies_parking_hotel)
  /\ Acme.parse acme_repeated_dto = ok acme_repeated_hotel
  /\ ~ no_duplicates (amenities acme_repeated_hotel).
Proof.
  split; [reflexivity|]. split; [|split; [reflexivity|]].
  - intros [G _]. cbn in G. inversion G as [|x l _ T]; subst.
    inversion T as [|y l' P _]; subst.
    cbn in P. repeat (destruct P as [P|P]; [discriminate P|]). exact P.
  - intros [G _]. cbn in G. inversion G as [|x l N _]; subst.
    apply N. now left.
Qed.

(** C5 (amended). Acme's and Patagonia's parse yield amenities drawn from the
    two vocabularies; Paperflies hands on the lists the supplier sent; a merge
    leaves in each list the values of both records, each once, so it keeps the
    lists inside the vocabularies when both records are. *)
Theorem amenities_classified_and_united {set_order : PySet} :
  (forall d h, Acme.parse d = ok h -> in_vocabulary (amenities h))
  /\ (forall d h, Patagonia.parse d = ok h -> in_vocabulary (amenities h))
  /\ (forall d h,
        Paperflies.parse d = ok h ->
        amenities h = match get (Paperflies.amenities d) with
                      | Some a => a
                      | None => Amenities.mk [] []
                      end)
  /\ (forall hotel existing,
        let m := amenities (snd (merge_existing hotel existing)) in
        no_duplicates m
        /\ (forall x, In x (Amenities.general m) <->
                      In x (Amenities.general (amenities existing))
                      \/ In x (Amenities.general (amenities hotel)))
        /\ (forall x, In x (Amenities.room m) <->
                      In x (Amenities.room (amenities existing))
                      \/ In x (Amenities.room (amenities hotel)))
        /\ (in_vocabulary (amenities existing) ->
            in_vocabulary (amenities hotel) -> in_vocabulary m)).
Proof.
  split; [|split; [|split]].
  - intros d h P. apply acme_parse_ok in P as (_ & _ & -> & _).
    apply acme_parse_amenities_in_vocabulary.
  - intros d h P. apply patagonia_parse_ok in P as (_ & _ & -> & _).
    apply patagonia_parse_amenities_in_vocabulary.
  - intros d h P. now apply paperflies_parse_ok in P as (_ & _ & -> & _).
  - intros hotel existing m. subst m. rewrite merge_existing_amenities.
    cbn [Amenities.general Amenities.room].
    assert (U : forall a b x, In x (list_of_set (a ++ b)) <-> In x a \/ In x b).
    { intros a b x. rewrite list_of_set_In. apply in_app_iff. }
    split; [split; apply list_of_set_NoDup|].
    split; [intros x; apply U|]. split; [intros x; apply U|].
    intros [Ge Re] [Gh Rh]. split; cbn [Amenities.general Amenities.room];
      apply Forall_forall; intros x I; apply U in I;
      rewrite Forall_forall in Ge, Re, Gh, Rh; destruct I; auto.
Qed.

(** C6 (counterexample). Each adapter hands a null name on: parsing a record
    whose optional fields are null yields a Hotel whose [name] is [None]. *)
Lemma null_name_counterexample :
  Acme.parse acme_null_dto = ok acme_null_hotel
  /\ Paperflies.parse paperflies_null_dto = ok paperflies_null_hotel
  /\ Patagonia.parse patagonia_null_dto = ok patagonia_null_hotel
  /\ name acme_null_hotel = None
  /\ name paperflies_null_hotel = None
  /\ name patagonia_null_hotel = None.
Proof. repeat split. Qed.

(** C6 (amended). Whenever an adapter yields a Hotel, a null description has
    become the empty string, null amenities (Acme, Patagonia: a null facility
    list) have become two empty lists and a null images object three empty
    sequences; Acme and Patagonia set [booking_conditions] to the empty list
    and Paperflies does so when the key is absent. The name is handed on as the
    supplier gave it: a null name stays [None]. *)
Theorem null_fields_defaulted_name_passed_on :
  (forall d h,
      Acme.parse d = ok h ->
      name h = get (Acme.Name d)
      /\ (Acme.Description d = Null -> description h = "")
      /\ (Acme.Facilities d = Null -> amenities h = Amenities.mk [] [])
      /\ images h = no_images
      /\ booking_conditions h = Some [])
  /\ (forall d h,
        Paperflies.parse d = ok h ->
        name h = get (Paperflies.hotel_name d)
        /\ (Paperflies.details d = Null -> description h = "")
        /\ (Paperflies.amenities d = Null -> amenities h = Amenities.mk [] [])
        /\ (Paperflies.images d = Null -> images h = no_images)
        /\ (Paperflies.booking_conditions d = Absent ->
            booking_conditions h = Some []))
  /\ (forall d h,
        Patagonia.parse d = ok h ->
        name h = get (Patagonia.name d)
        /\ (Patagonia.info d = Null -> description h = "")
        /\ (Patagonia.amenities d = Null -> amenities h = Amenities.mk [] [])
        /\ (Patagonia.images d = Null -> images h = no_images)
        /\ booking_conditions h = Some []).
Proof.
  split; [|split]; intros d h P.
  - apply acme_parse_ok in P as (N & D & A & I & B).
    repeat split; try assumption.
    + intros E. now rewrite D, E.
    + intros E. now rewrite A, E.
  - apply paperflies_parse_ok in P as (N & D & A & I & B).
    repeat split; try assumption.
    + intros E. now rewrite D, E.
    + intros E. now rewrite A, E.
    + intros E. now rewrite B, E.
  - apply patagonia_parse_ok in P as (N & D & A & I & B).
    repeat split; try assumption.
    + intros E. now rewrite D, E.
    + intros E. now rewrite A, E.
Qed.

(** ** Merging a mapping with its own hotels *)

Lemma same_elements_refl (l : list string) : same_elements l l.
Proof. intros x. reflexivity. Qed.

Lemma same_up_to_sets_refl (h : Hotel) : same_up_to_sets h h.
Proof.
  unfold same_up_to_sets. repeat split; try apply same_elements_refl; auto.
  destruct (booking_conditions h); [apply same_elements_refl | exact I].
Qed.

Lemma same_entry_refl (d : list (string * Hotel)) : Forall2 same_entry d d.
Proof.
  induction d as [|e d IH]; constructor; [|assumption].
  split; [reflexivity | apply same_up_to_sets_refl].
Qed.

Lemma new_location_same (l : Location.t) : new_location l l = [].
Proof.
  destruct l as [a1 a2 a3 a4 a5]. unfold new_location, Location.items.
  cbn [filter fst snd Location.getk Location.lat Location.lng
       Location.address Location.city Location.country].
  destruct (truthy a1), (truthy a2), (truthy a3), (truthy a4), (truthy a5);
    reflexivity.
Qed.

Lemma image_opt_eqb_refl (o : option string) : Image.opt_eqb o o = true.
Proof. destruct o; cbn; [apply String.eqb_refl | reflexivity]. Qed.

Lemma image_eqb_refl (img : Image.t) : Image.eqb img img = true.
Proof. unfold Image.eqb. now rewrite !image_opt_eqb_refl. Qed.

Lemma filter_none {A} (f : A -> bool) (l : list A) :
  (forall x, In x l -> f x = false) -> filter f l = [].
Proof.
  induction l as [|x l IH]; intros N; cbn; [reflexivity|].
  rewrite (N x (or_introl eq_refl)). apply IH. intros y I. apply N. now right.
Qed.

(** Appending a sequence of images to itself appends nothing. *)
Lemma append_new_images_same (l : list Image.t) : append_new_images l l = l.
Proof.
  unfold append_new_images. rewrite filter_none; [apply app_nil_r|].
  intros img I. apply negb_false_iff. unfold Image.mem.
  apply existsb_exists. exists img. split; [assumption|apply image_eqb_refl].
Qed.

Section Remerge.
Context {set_order : PySet}.

Lemma list_of_set_twice (l : list string) :
  same_elements l (list_of_set (l ++ l)).
Proof. intros x. rewrite list_of_set_In, in_app_iff. tauto. Qed.

(** A hotel merged with itself: every rule leaves its field as it is, but for
    the lists that go through a set. *)
Lemma merge_existing_same (h : Hotel) :
  same_up_to_sets h (snd (merge_existing h h)).
Proof.
  rewrite merge_existing_eq. unfold same_up_to_sets.
  cbn [snd id destination_id name description location amenities images
       booking_conditions Amenities.general Amenities.room].
  rewrite new_location_same, !append_new_images_same, Nat.ltb_irrefl.
  repeat split; try apply list_of_set_twice.
  - unfold py_or. now destruct (truthy (name h)).
  - now destruct (images h).
  - destruct (booking_conditions h); [apply list_of_set_twice | exact I].
Qed.

Lemma merge_one_registered
      (pre post : list (string * Hotel)) (k : string) (h hotel : Hotel) :
  ~ In k (dict_keys pre) -> id hotel = k ->
  merge_one hotel (mkService (pre ++ (k, h) :: post))
  = (fst (merge_existing hotel h),
     mkService (pre ++ (k, snd (merge_existing hotel h)) :: post)).
Proof.
  intros F E. subst k. unfold merge_one. cbn [hotels].
  rewrite dict_get_app_fresh by assumption.
  cbn [dict_get]. rewrite String.eqb_refl.
  destruct (merge_existing hotel h) as [r e'].
  now rewrite dict_set_app_fresh.
Qed.

(** A merge that raised nothing rebuilt the three lists through a set. *)
Lemma merge_existing_rebuilt (hotel existing : Hotel) (u : unit) :
  fst (merge_existing hotel existing) = inr u ->
  rebuilt_through_sets (snd (merge_existing hotel existing)).
Proof.
  rewrite merge_existing_eq. unfold rebuilt_through_sets.
  cbn [fst snd amenities booking_conditions Amenities.general Amenities.room].
  destruct (booking_conditions existing) as [e|]; [|discriminate].
  destruct (booking_conditions hotel) as [h|]; [|discriminate].
  intros _. repeat split; try apply list_of_set_NoDup.
  eexists. split; [reflexivity | apply list_of_set_NoDup].
Qed.

Lemma remerge_from (post pre : list (string * Hotel)) :
  NoDup (dict_keys (pre ++ post)) ->
  Forall (fun e => fst e = id (snd e)) post ->
  exists post',
    hotels (snd (merge_and_save (dict_values post) (mkService (pre ++ post))))
    = pre ++ post'
    /\ Forall2 same_entry post post'
    /\ (fst (merge_and_save (dict_values post) (mkService (pre ++ post)))
        = ok tt ->
        Forall (fun e => rebuilt_through_sets (snd e)) post').
Proof.
  revert pre. induction post as [|[k h] post IH]; intros pre N K.
  - exists []. split; [reflexivity|]. split; constructor.
  - inversion K as [|e l Kh Kp]; subst. cbn [fst snd] in Kh.
    assert (F : ~ In k (dict_keys pre)).
    { unfold dict_keys in *. rewrite map_app in N. cbn [map fst] in N.
      apply NoDup_remove_2 in N. intros I. apply N, in_or_app. now left. }
    cbn [dict_values map snd merge_and_save].
    rewrite (merge_one_registered pre post k h h F (eq_sym Kh)).
    pose proof (merge_existing_rebuilt h h) as B.
    destruct (fst (merge_existing h h)) as [e|u].
    + exists ((k, snd (merge_existing h h)) :: post). split; [reflexivity|].
      split; [|discriminate].
      constructor; [|apply same_entry_refl].
      split; [reflexivity | apply merge_existing_same].
    + destruct (IH (pre ++ [(k, snd (merge_existing h h))]))
        as (post' & E & S & R).
      * rewrite <- app_assoc. cbn [app].
        unfold dict_keys in *. rewrite map_app in *. exact N.
      * assumption.
      * rewrite <- app_assoc in E, R. cbn [app] in E, R.
        exists ((k, snd (merge_existing h h)) :: post'). split; [|split].
        -- rewrite <- app_assoc in E. exact E.
        -- constructor; [|assumption].
           split; [reflexivity | apply merge_existing_same].
        -- intros Ok. constructor; [exact (B u eq_refl) | now apply R].
Qed.

Lemma merge_one_keyed_by_id (hotel : Hotel) (self : HotelsService) :
  keyed_by_id (hotels self) ->
  keyed_by_id (hotels (snd (merge_one hotel self))).
Proof.
  intros [N K]. unfold merge_one.
  destruct (dict_get (id hotel) (hotels self)) as [existing|] eqn:G.
  - destruct (merge_existing hotel existing) as [r e'] eqn:M.
    cbn [snd hotels]. split.
    + now rewrite (dict_keys_set_old _ _ existing).
    + apply Forall_forall. intros kv I.
      apply dict_set_In in I as [->|I].
      * cbn [fst snd].
        replace e' with (snd (merge_existing hotel existing)) by now rewrite M.
        rewrite merge_existing_id.
        apply dict_get_In in G. rewrite Forall_forall in K.
        exact (K _ G).
      * rewrite Forall_forall in K. now apply K.
  - cbn [snd hotels]. rewrite dict_set_new by assumption. split.
    + unfold dict_keys. rewrite map_app. cbn [map fst].
      apply NoDup_app_remove_l with (l := []). cbn [app].
      apply Permutation_NoDup with (l := id hotel :: map fst (hotels self)).
      * apply Permutation_cons_append.
      * constructor; [now apply dict_get_None | assumption].
    + apply Forall_app. split; [assumption|]. now constructor.
Qed.

Lemma merge_and_save_keyed_by_id
      (supplier_data : list Hotel) (self : HotelsService) :
  keyed_by_id (hotels self) ->
  keyed_by_id (hotels (snd (merge_and_save supplier_data self))).
Proof.
  revert self. induction supplier_data as [|hotel rest IH]; intros self W.
  - assumption.
  - cbn [merge_and_save].
    pose proof (merge_one_keyed_by_id hotel self W) as W1.
    destruct (merge_one hotel self) as [[e|u] self']; [assumption|].
    now apply IH.
Qed.

(** C4 (amended). Merging a mapping that [merge_and_save] produced with its own
    hotels keeps the keys and their order, and leaves [id], [destination_id],
    [name], [description], [location] and [images] of every hotel as they
    were; [amenities.general], [amenities.room] and [booking_conditions] keep
    their elements. They need not stay the same lists: when this second merge
    raises no exception, each of the three lists of every hotel has come out
    of a set and holds each of its elements once. *)
Theorem remerge_keeps_fields_and_elements (supplier_data : list Hotel) :
  let merged := snd (merge_and_save supplier_data new_service) in
  let again := merge_and_save (dict_values (hotels merged)) merged in
  Forall2 same_entry (hotels merged) (hotels (snd again))
  /\ (fst again = ok tt ->
      Forall (fun e => rebuilt_through_sets (snd e)) (hotels (snd again))).
Proof.
  intros merged again.
  assert (W : keyed_by_id (hotels merged)).
  { apply merge_and_save_keyed_by_id. split; constructor. }
  destruct W as [N K].
  destruct (remerge_from (hotels merged) [] N K) as (post' & E & S & R).
  subst again. destruct merged as [d]. cbn [hotels app] in *.
  rewrite E. now split.
Qed.

End Remerge.

(** ** The claims on sample records *)

(** C1 (counterexample). Acme gives the address [""] for a null address and
    Paperflies [None] for a record without location: the existing address is
    absent (falsy), yet the merge does not adopt the incoming value. *)
Lemma location_fill_counterexample :
  Acme.parse acme_null_dto = ok acme_null_hotel
  /\ Paperflies.parse paperflies_null_dto = ok paperflies_null_hotel
  /\ id acme_null_hotel = id paperflies_null_hotel
  /\ truthy (Location.address (location acme_null_hotel)) = false
  /\ Location.address (location paperflies_null_hotel) = VNone
  /\ exists m,
      dict_get (id acme_null_hotel)
        (hotels (snd (@merge_and_save PySet_nodup
                        [acme_null_hotel; paperflies_null_hotel] new_service)))
      = Some m
      /\ Location.address (location m) = VStr ""
      /\ Location.address (location m)
         <> Location.address (location paperflies_null_hotel).
Proof.
  repeat split. eexists. split; [reflexivity|]. split; [reflexivity|].
  discriminate.
Qed.

(** C1 on two records of one hotel: the city the first record lacks comes
    from the second. *)
Lemma location_fill_witness :
  exists m,
    dict_get "iJhz"
      (hotels (snd (@merge_and_save PySet_nodup
                      [beach_villas_short; beach_villas_long] new_service)))
    = Some m
    /\ Location.getk Location.Kcity (location m) = VStr "Singapore"
    /\ forall later,
        truthy (Location.getk Location.Kcity (location m)) = true ->
        exists m',
          dict_get "iJhz"
            (hotels (snd (@merge_and_save PySet_nodup later
                            (snd (@merge_and_save PySet_nodup
                                    [beach_villas_short; beach_villas_long]
                                    new_service)))))
          = Some m'
          /\ Location.getk Location.Kcity (location m')
             = Location.getk Location.Kcity (location m).
Proof.
  exact (@location_fill_first_present_wins PySet_nodup beach_villas_short
           beach_villas_long Location.Kcity eq_refl).
Defined.

(** C2 on two records of one hotel: the longer description, in both
    orders. *)
Lemma description_longer_wins_witness :
  exists m m',
    dict_get "iJhz"
      (hotels (snd (@merge_and_save PySet_nodup
                      [beach_villas_short; beach_villas_long] new_service)))
    = Some m
    /\ dict_get "iJhz"
         (hotels (snd (@merge_and_save PySet_nodup
                         [beach_villas_long; beach_villas_short] new_service)))
       = Some m'
    /\ description m = "much longer text"
    /\ (String.length "short" <> String.length "much longer text" ->
        description m' = description m).
Proof.
  exact (@description_longer_wins PySet_nodup beach_villas_short
           beach_villas_long eq_refl).
Defined.

(** C3 on two records of one hotel: the name of the later record. *)
Lemma name_later_non_empty_wins_witness :
  exists m,
    dict_get "iJhz"
      (hotels (snd (@merge_and_save PySet_nodup
                      [beach_villas_short; beach_villas_long] new_service)))
    = Some m
    /\ name m = Some "Beach Villas Singapore".
Proof.
  exact (@name_later_non_empty_wins PySet_nodup beach_villas_short
           beach_villas_long eq_refl).
Defined.

(** C8 on two records of one hotel, merged into a new service. *)
Lemma id_and_destination_first_wins_witness :
  dict_get "iJhz"
    (hotels (snd (@merge_one PySet_nodup beach_villas_short new_service)))
  = Some beach_villas_short
  /\ exists h,
      dict_get "iJhz"
        (hotels (snd (@merge_and_save PySet_nodup
                        [beach_villas_short; beach_villas_long] new_service)))
      = Some h
      /\ id h = "iJhz"
      /\ destination_id h = IInt 5432.
Proof.
  exact (@id_and_destination_first_wins PySet_nodup new_service
           beach_villas_short [beach_villas_long] eq_refl).
Defined.

(** C4 (counterexample). A hotel registered once keeps the repetitions of its
    amenity lists; merging the mapping with its own hotels collapses them,
    whatever order the set hands the elements out in. *)
Lemma remerge_counterexample :
  Acme.parse acme_repeated_dto = ok acme_repeated_hotel
  /\ (forall S : PySet,
        @merge_and_save S [acme_repeated_hotel] new_service
        = (ok tt, acme_repeated_service))
  /\ ~ (exists S : PySet,
          snd (@merge_and_save S (dict_values (hotels acme_repeated_service))
                               acme_repeated_service)
          = acme_repeated_service).
Proof.
  split; [reflexivity|]. split; [reflexivity|].
  intros [S E].
  pose proof (@merge_one_registered S [] [] "SjyX" acme_repeated_hotel
                acme_repeated_hotel (fun x => x) eq_refl) as R.
  cbn [app] in R.
  unfold acme_repeated_service in E.
  cbn [dict_values hotels map snd merge_and_save] in E.
  rewrite R, merge_existing_eq in E. cbn in E.
  injection E as G _.
  pose proof (list_of_set_NoDup
                ["breakfast"; "breakfast"; "breakfast"; "breakfast"]) as N.
  rewrite G in N. inversion N as [|x l F _]; subst.
  apply F. now left.
Qed.

(** C5 on an Acme record and on a merge of two records. *)
Lemma amenities_classified_and_united_witness :
  in_vocabulary (amenities acme_repeated_hotel)
  /\ no_duplicates
       (amenities (snd (@merge_existing PySet_nodup beach_villas_long
                                        beach_villas_short))).
Proof.
  split.
  - exact (proj1 (@amenities_classified_and_united PySet_nodup)
                 acme_repeated_dto acme_repeated_hotel eq_refl).
  - exact (proj1 (proj2 (proj2 (proj2
                   (@amenities_classified_and_united PySet_nodup)))
                   beach_villas_long beach_villas_short)).
Defined.

(** C6 on the Acme record that holds nulls only. *)
Lemma null_fields_defaulted_witness :
  name acme_null_hotel = None
  /\ description acme_null_hotel = ""
  /\ amenities acme_null_hotel = Amenities.mk [] []
  /\ images acme_null_hotel = no_images
  /\ booking_conditions acme_null_hotel = Some [].
Proof.
  destruct (proj1 null_fields_defaulted_name_passed_on
                  acme_null_dto acme_null_hotel eq_refl)
    as (N & D & A & I & B).
  repeat split; auto.
Defined.

(** C10 on the token ["WiFi"]. *)
Lemma wifi_is_dropped_witness :
  camel_to_snake_case "WiFi" = "wi fi"
  /\ list_in "wi fi" GENERAL_AMENITIES = false
  /\ list_in "wi fi" ROOM_AMENITIES = false
  /\ Acme.parse_amenities ["WiFi"] = Amenities.mk [] [].
Proof.
  exact (camel_case_boundary_token_is_dropped "WiFi" "W" "F" "i" "i"
           eq_refl eq_refl eq_refl).
Defined.

(** * Further properties of the code *)

(** ** The loop of [merge_and_save] *)

Section MergeLoop.
Context {set_order : PySet}.

(** X1. Merging a concatenation is merging its parts one after the other, and
    an exception in the first part leaves the second unmerged: the single
    [merge_and_save] of [fetch_hotels] over the extended list does what one
    call per supplier would do. *)
Theorem merge_and_save_app (l1 l2 : list Hotel) (self : HotelsService) :
  merge_and_save (l1 ++ l2) self
  = match merge_and_save l1 self with
    | (inl e, self') => (inl e, self')
    | (inr _, self') => merge_and_save l2 self'
    end.
Proof.
  revert self. induction l1 as [|hotel l1 IH]; intros self.
  - reflexivity.
  - cbn [app merge_and_save].
    destruct (merge_one hotel self) as [[e|u] self']; [reflexivity|apply IH].
Qed.

Lemma merge_one_frame (hotel : Hotel) (self : HotelsService) (k : string) :
  k <> id hotel ->
  dict_get k (hotels (snd (merge_one hotel self))) = dict_get k (hotels self).
Proof.
  intros N. unfold merge_one.
  destruct (dict_get (id hotel) (hotels self)) as [existing|].
  - destruct (merge_existing hotel existing) as [r e']. cbn [snd hotels].
    now apply dict_get_set_other.
  - cbn [snd hotels]. now apply dict_get_set_other.
Qed.

(** X2. [merge_and_save] touches only the entries of the ids it is given: the
    hotel registered under any other id is the same afterwards, also when the
    call raises. *)
Theorem merge_and_save_frame
        (supplier_data : list Hotel) (self : HotelsService) (k : string) :
  ~ In k (map id supplier_data) ->
  dict_get k (hotels (snd (merge_and_save supplier_data self)))
  = dict_get k (hotels self).
Proof.
  revert self. induction supplier_data as [|hotel rest IH]; intros self N.
  - reflexivity.
  - cbn [merge_and_save].
    pose proof (merge_one_frame hotel self k) as F.
    destruct (merge_one hotel self) as [[e|u] self']; cbn [snd] in *.
    + apply F. intros ->. apply N. now left.
    + rewrite IH.
      * apply F. intros ->. apply N. now left.
      * intros I. apply N. now right.
Qed.

(** X4. A record that meets a registered hotel of its id raises [TypeError]
    when either of the two has [None] for its booking conditions: the other
    fields of the entry are merged by then, and the records after it are not
    looked at. *)
Theorem merge_and_save_raises_on_none
        (hotel existing : Hotel) (rest : list Hotel) (self : HotelsService) :
  dict_get (id hotel) (hotels self) = Some existing ->
  booking_conditions existing = None \/ booking_conditions hotel = None ->
  merge_and_save (hotel :: rest) self
  = (raise TypeError,
     mkService (dict_set (id hotel) (snd (merge_existing hotel existing))
                         (hotels self))).
Proof.
  intros G B. cbn [merge_and_save]. unfold merge_one. rewrite G.
  assert (R : fst (merge_existing hotel existing) = raise TypeError).
  { rewrite merge_existing_eq. cbn [fst].
    destruct B as [-> | ->]; [reflexivity|].
    now destruct (booking_conditions existing). }
  destruct (merge_existing hotel existing) as [r e']. cbn [fst snd] in *.
  now subst r.
Qed.

Lemma dict_get_keys {V} (k : string) (d : list (string * V)) :
  In k (dict_keys d) <-> dict_get k d <> None.
Proof.
  split.
  - intros I N. now apply dict_get_None in N.
  - induction d as [|[k' v] d IH]; cbn; [congruence|].
    destruct (String.eqb k k') eqn:E.
    + apply String.eqb_eq in E. now left.
    + intros N. right. now apply IH.
Qed.

Lemma merge_one_keys (hotel : Hotel) (self : HotelsService) :
  dict_keys (hotels (snd (merge_one hotel self)))
  = add_key (id hotel) (dict_keys (hotels self)).
Proof.
  unfold merge_one, add_key.
  destruct (dict_get (id hotel) (hotels self)) as [existing|] eqn:G.
  - destruct (merge_existing hotel existing) as [r e']. cbn [snd hotels].
    rewrite (dict_keys_set_old _ _ existing) by assumption.
    destruct (in_dec string_dec (id hotel) (dict_keys (hotels self)))
      as [I|N]; [reflexivity|].
    exfalso. apply N, dict_get_keys. congruence.
  - cbn [snd hotels]. rewrite dict_set_new by assumption.
    destruct (in_dec string_dec (id hotel) (dict_keys (hotels self)))
      as [I|N].
    + apply dict_get_keys in I. congruence.
    + unfold dict_keys. now rewrite map_app.
Qed.

Lemma nodup_app_skip (x : string) (a b : list string) :
  In x b -> nodup string_dec (a ++ x :: b) = nodup string_dec (a ++ b).
Proof.
  intros I. induction a as [|y a IH]; cbn.
  - destruct (in_dec string_dec x b); [reflexivity|contradiction].
  - rewrite IH.
    destruct (in_dec string_dec y (a ++ x :: b)) as [P|P];
      destruct (in_dec string_dec y (a ++ b)) as [Q|Q]; try reflexivity.
    + exfalso. apply Q. apply in_app_or in P as [P|[->|P]];
        apply in_or_app; auto.
    + exfalso. apply P. apply in_app_or in Q as [Q|Q];
        apply in_or_app; [now left | right; now right].
Qed.

Lemma add_key_NoDup (k : string) (keys : list string) :
  NoDup keys -> NoDup (add_key k keys).
Proof.
  intros N. unfold add_key.
  destruct (in_dec string_dec k keys) as [I|I]; [assumption|].
  apply (Permutation_NoDup (Permutation_cons_append keys k)).
  now constructor.
Qed.

Lemma fold_add_key_first_seen (ids keys : list string) :
  NoDup keys ->
  fold_left (fun ks k => add_key k ks) ids keys
  = rev (nodup string_dec (rev ids ++ rev keys)).
Proof.
  revert keys. induction ids as [|x ids IH]; intros keys N.
  - cbn. rewrite nodup_fixed_point by now apply NoDup_rev.
    symmetry. apply rev_involutive.
  - cbn [fold_left rev]. rewrite IH by now apply add_key_NoDup.
    f_equal. rewrite <- app_assoc. cbn [app]. unfold add_key.
    destruct (in_dec string_dec x keys) as [I|I].
    + symmetry. apply nodup_app_skip. now apply in_rev in I.
    + now rewrite rev_app_distr.
Qed.

Lemma merge_and_save_keys
      (supplier_data : list Hotel) (self : HotelsService) :
  fst (merge_and_save supplier_data self) = ok tt ->
  dict_keys (hotels (snd (merge_and_save supplier_data self)))
  = fold_left (fun ks k => add_key k ks) (map id supplier_data)
              (dict_keys (hotels self)).
Proof.
  revert self. induction supplier_data as [|hotel rest IH]; intros self R.
  - reflexivity.
  - cbn [merge_and_save map fold_left] in *.
    rewrite <- merge_one_keys.
    destruct (merge_one hotel self) as [[e|u] self']; cbn [fst snd] in *.
    + discriminate R.
    + now apply IH.
Qed.

(** X5. After a [merge_and_save] into a new service that raised nothing, the
    mapping has one key for every id of the supplied records and no other, in
    the order in which the ids were first seen; every hotel is filed under its
    own id. *)
Theorem merge_and_save_one_entry_per_id (supplier_data : list Hotel) :
  fst (merge_and_save supplier_data new_service) = ok tt ->
  dict_keys (hotels (snd (merge_and_save supplier_data new_service)))
  = first_seen (map id supplier_data)
  /\ keyed_by_id (hotels (snd (merge_and_save supplier_data new_service))).
Proof.
  intros R. split.
  - rewrite merge_and_save_keys by assumption.
    rewrite fold_add_key_first_seen by constructor.
    cbn [new_service hotels dict_keys map rev]. now rewrite app_nil_r.
  - apply merge_and_save_keyed_by_id. split; constructor.
Qed.

(** X6. The description of a registered hotel never gets shorter, whatever is
    merged later, and the hotel stays registered. *)
Theorem description_never_shrinks
        (supplier_data : list Hotel) (self : HotelsService)
        (k : string) (h : Hotel) :
  dict_get k (hotels self) = Some h ->
  exists h',
    dict_get k (hotels (snd (merge_and_save supplier_data self))) = Some h'
    /\ String.length (description h) <= String.length (description h').
Proof.
  intros G.
  apply (merge_and_save_keeps
           (fun x => String.length (description h)
                     <= String.length (description x))) with (h := h); auto.
  intros hotel existing L. rewrite merge_existing_description.
  destruct (Nat.ltb_spec (String.length (description existing))
                         (String.length (description hotel))); lia.
Qed.

(** X7. Once a registered hotel has a non-empty name, it has a non-empty name
    after every later merge: an empty or missing name never replaces it. *)
Theorem name_stays_non_empty
        (supplier_data : list Hotel) (self : HotelsService)
        (k : string) (h : Hotel) :
  dict_get k (hotels self) = Some h ->
  truthy (name h) = true ->
  exists h',
    dict_get k (hotels (snd (merge_and_save supplier_data self))) = Some h'
    /\ truthy (name h') = true.
Proof.
  intros G T.
  apply (merge_and_save_keeps (fun x => truthy (name x) = true)) with (h := h);
    auto.
  intros hotel existing L. rewrite merge_existing_name. unfold py_or.
  now destruct (truthy (name hotel)) eqn:E.
Qed.

End MergeLoop.

(** ** Images and booking conditions in a merge *)

Lemma image_opt_eqb_eq (a b : option string) :
  Image.opt_eqb a b = true <-> a = b.
Proof.
  destruct a as [x|], b as [y|]; cbn; split; intros E;
    try discriminate; try reflexivity.
  - apply String.eqb_eq in E. now subst.
  - injection E as ->. apply String.eqb_refl.
Qed.

Lemma image_eqb_eq (a b : Image.t) : Image.eqb a b = true <-> a = b.
Proof.
  unfold Image.eqb. rewrite andb_true_iff, !image_opt_eqb_eq.
  destruct a, b; cbn; split.
  - intros [-> ->]. reflexivity.
  - intros E. injection E as -> ->. now split.
Qed.

Lemma image_mem_In (img : Image.t) (l : list Image.t) :
  Image.mem img l = true <-> In img l.
Proof.
  unfold Image.mem. rewrite existsb_exists. split.
  - intros (x & I & E). apply image_eqb_eq in E. now subst.
  - intros I. exists img. split; [assumption | apply image_eqb_refl].
Qed.

Lemma append_new_images_spec (e h : list Image.t) :
  appended_without_known e h (append_new_images e h).
Proof.
  unfold appended_without_known, append_new_images. repeat split.
  - eexists. split; [reflexivity|]. intros x I.
    now apply filter_In in I as [I _].
  - intros I. apply in_app_or in I as [I|I]; [now left|].
    apply filter_In in I as [I _]. now right.
  - intros [I|I]; apply in_or_app; [now left|].
    destruct (Image.mem img e) eqn:M.
    + left. now apply image_mem_In.
    + right. apply filter_In. split; [assumption|]. now rewrite M.
  - intros Ne Nh. apply NoDup_app; [assumption | now apply NoDup_filter |].
    intros x Ie If. apply filter_In in If as [_ F].
    apply image_mem_In in Ie. rewrite Ie in F. discriminate.
Qed.

Section MergeCollections.
Context {set_order : PySet}.

(** X8. In each of the three image sequences a merge keeps the existing
    images in their order, and appends those incoming images that the existing
    sequence does not hold: no image of either record is lost, and two
    sequences without repetitions give one without repetitions. *)
Theorem images_appended_without_known (hotel existing : Hotel) :
  let m := images (snd (merge_existing hotel existing)) in
  appended_without_known (Images.rooms (images existing))
                         (Images.rooms (images hotel)) (Images.rooms m)
  /\ appended_without_known (Images.site (images existing))
                            (Images.site (images hotel)) (Images.site m)
  /\ appended_without_known (Images.amenities (images existing))
                            (Images.amenities (images hotel))
                            (Images.amenities m).
Proof.
  intros m. subst m. rewrite merge_existing_images.
  cbn [Images.rooms Images.site Images.amenities].
  repeat split; apply append_new_images_spec.
Qed.

(** X9. The incoming images are compared with the existing sequence only, not
    with each other: an image that the incoming record lists twice and the
    existing one does not hold is appended twice, so the merged sequence
    repeats it. *)
Theorem incoming_repeated_image_is_kept
        (hotel existing : Hotel) (img : Image.t) :
  Images.rooms (images hotel) = [img; img] ->
  ~ In img (Images.rooms (images existing)) ->
  Images.rooms (images (snd (merge_existing hotel existing)))
  = Images.rooms (images existing) ++ [img; img]
  /\ ~ NoDup (Images.rooms (images (snd (merge_existing hotel existing)))).
Proof.
  intros H N.
  assert (E : Images.rooms (images (snd (merge_existing hotel existing)))
              = Images.rooms (images existing) ++ [img; img]).
  { rewrite merge_existing_images. cbn [Images.rooms].
    unfold append_new_images. rewrite H. cbn [filter].
    destruct (Image.mem img (Images.rooms (images existing))) eqn:M.
    - apply image_mem_In in M. contradiction.
    - reflexivity. }
  split; [assumption|]. rewrite E. intros D.
  apply NoDup_remove_2 in D. apply D, in_or_app. right. now left.
Qed.

(** X10. When both records carry booking conditions, the merged list holds the
    conditions of both, each once. *)
Theorem booking_conditions_united
        (hotel existing : Hotel) (e h : list string) :
  booking_conditions existing = Some e ->
  booking_conditions hotel = Some h ->
  exists m,
    booking_conditions (snd (merge_existing hotel existing)) = Some m
    /\ NoDup m
    /\ forall x, In x m <-> In x e \/ In x h.
Proof.
  intros Ee Eh. rewrite merge_existing_booking_conditions, Ee, Eh.
  eexists. split; [reflexivity|]. split; [apply list_of_set_NoDup|].
  intros x. rewrite list_of_set_In. apply in_app_iff.
Qed.

End MergeCollections.

(** ** [find] as the command line calls it *)

Lemma prefix_app (p s : string) :
  prefix p s = true <-> exists b, s = (p ++ b)%string.
Proof.
  revert s. induction p as [|c p IH]; intros s; cbn.
  - split; [intros _; now exists s | intros _; now destruct s].
  - destruct s as [|c' s]; cbn [prefix];
      [split; [discriminate | intros [b E]; discriminate]|].
    destruct (ascii_dec c c') as [->|N].
    + rewrite IH. split; intros [b E]; exists b; cbn in *; congruence.
    + split; [discriminate|]. intros [b E]. cbn in E. congruence.
Qed.

(** [p in s]: [s] is [p] with something before and something after it. *)
Lemma str_in_app (p s : string) :
  str_in p s = true <-> exists a b, s = (a ++ p ++ b)%string.
Proof.
  induction s as [|c s IH].
  - cbn [str_in]. rewrite orb_false_r, prefix_app. split.
    + intros [b E]. now exists EmptyString, b.
    + intros (a & b & E). destruct a; [now exists b | discriminate].
  - cbn [str_in]. rewrite orb_true_iff, prefix_app, IH. split.
    + intros [[b E]|(a & b & E)].
      * now exists EmptyString, b.
      * exists (String c a), b. cbn. now rewrite E.
    + intros (a & b & E). destruct a as [|c' a].
      * left. now exists b.
      * right. cbn in E. injection E as -> E. now exists a, b.
Qed.

Lemma falsy_string_empty (s : string) : negb (truthy s) = true <-> s = "".
Proof. destruct s; cbn; split; intros; congruence. Qed.

(** X11. [main] hands the two command-line arguments to [find] as they are,
    two strings: the empty string matches every hotel, and any other argument
    matches the hotels whose id (or [str(destination_id)]) occurs somewhere in
    it, so a list of ids joined by any separator selects each of them, and
    also every hotel whose id is part of one of them. *)
Theorem find_on_strings_matches_substrings
        (self : HotelsService) (hotel_ids destination_ids : string) :
  exists found,
    fst (find hotel_ids destination_ids self) = ok found
    /\ forall h,
        In h found <->
        In h (dict_values (hotels self))
        /\ (hotel_ids = ""
            \/ exists a b, hotel_ids = (a ++ id h ++ b)%string)
        /\ (destination_ids = ""
            \/ exists a b,
                destination_ids
                = (a ++ py_str (destination_id h) ++ b)%string).
Proof.
  eexists. split; [reflexivity|]. intros h.
  rewrite filter_In, andb_true_iff, !orb_true_iff.
  unfold contains, contains_string.
  rewrite !falsy_string_empty, !str_in_app. reflexivity.
Qed.

Lemma NoDup_map_filter {V K} (keep : V -> bool) (key : V -> K)
      (values : list V) :
  NoDup (map key values) -> NoDup (map key (filter keep values)).
Proof.
  intros N. induction values as [|v values IH]; cbn in *; [constructor|].
  inversion N as [|k ks F N']; subst.
  destruct (keep v); cbn; [constructor|]; auto.
  intros I. apply F. apply in_map_iff in I as (z & E & I).
  apply filter_In in I as [I _]. apply in_map_iff. now exists z.
Qed.

Lemma keyed_by_id_ids (d : list (string * Hotel)) :
  keyed_by_id d -> map id (dict_values d) = dict_keys d.
Proof.
  intros [_ K]. unfold dict_values, dict_keys. rewrite map_map.
  apply map_ext_in. intros e I. rewrite Forall_forall in K.
  symmetry. now apply K.
Qed.

(** X12. On a mapping that files every hotel under its own id, as
    [merge_and_save] builds it, [find] returns no two hotels with the same id,
    whatever the filters are; with two empty filters it returns every hotel,
    in the order of the mapping. *)
Theorem find_returns_each_id_once
        {C D} `{Truthy C} `{Contains C} `{Truthy D} `{Contains D}
        (hotel_ids : C) (destination_ids : D) (self : HotelsService) :
  keyed_by_id (hotels self) ->
  exists found,
    fst (find hotel_ids destination_ids self) = ok found
    /\ NoDup (map id found)
    /\ (truthy hotel_ids = false -> truthy destination_ids = false ->
        found = dict_values (hotels self)).
Proof.
  intros K. eexists. split; [reflexivity|]. split.
  - apply NoDup_map_filter. rewrite keyed_by_id_ids by assumption.
    now destruct K.
  - intros -> ->. cbn [negb orb andb]. apply filter_true.
Qed.

(** ** [Acme.parse] *)

Lemma getitem_present {A} (f : jfield A) :
  f <> Absent -> getitem f = ok (get f).
Proof. destruct f; cbn; congruence. Qed.

Lemma getitem_id_present (f : jfield pyid) :
  f <> Absent -> exists v, getitem_id f = ok v.
Proof. destruct f; cbn; [congruence| |]; intros _; eexists; reflexivity. Qed.

Lemma getitem_raises {A} (f : jfield A) (e : pyexn) :
  getitem f = inl e -> e = KeyError /\ f = Absent.
Proof. destruct f; cbn; intros E; inversion E. now split. Qed.

Lemma getitem_val_raises (f : jfield pyval) (e : pyexn) :
  getitem_val f = inl e -> e = KeyError /\ f = Absent.
Proof. destruct f; cbn; intros E; inversion E. now split. Qed.

Lemma getitem_id_raises (f : jfield pyid) (e : pyexn) :
  getitem_id f = inl e -> e = KeyError /\ f = Absent.
Proof. destruct f; cbn; intros E; inversion E. now split. Qed.

Lemma getitem_str_raises (f : option string) (e : pyexn) :
  getitem_str f = inl e -> e = KeyError /\ f = None.
Proof. destruct f; cbn; intros E; inversion E. now split. Qed.

Lemma getitem_val_ok (f : jfield pyval) (v : pyval) :
  getitem_val f = inr v -> f <> Absent.
Proof. destruct f; cbn; congruence. Qed.

Lemma getitem_id_ok (f : jfield pyid) (v : pyid) :
  getitem_id f = inr v -> f <> Absent.
Proof. destruct f; cbn; congruence. Qed.

Lemma getitem_str_ok (f : option string) (v : string) :
  getitem_str f = inr v -> f <> None.
Proof. destruct f; cbn; unfold raise; congruence. Qed.

(** Reads a failed chain of binds: the step that raised, or none. *)
Ltac failed_bind H :=
  repeat
    (cbv zeta in H;
     match type of H with
     | rbind ?m _ = inl _ =>
         let E := fresh "E" in
         destruct m eqn:E; cbn [rbind] in H;
         [injection H as <-;
          first [ apply getitem_raises in E
                | apply getitem_val_raises in E
                | apply getitem_id_raises in E
                | apply getitem_str_raises in E ];
          exact (proj1 E) |]
     end).

Lemma acme_parse_ok_keys (d : Acme.dto) (h : Hotel) :
  Acme.parse d = ok h -> acme_keys_present d.
Proof.
  intros P. unfold Acme.parse in P. invert_binds P.
  repeat match goal with
         | E : getitem _ = inr _ |- _ =>
             apply getitem_ok in E; destruct E as [_ E]
         | E : getitem_val _ = inr _ |- _ => apply getitem_val_ok in E
         | E : getitem_id _ = inr _ |- _ => apply getitem_id_ok in E
         | E : getitem_str _ = inr _ |- _ => apply getitem_str_ok in E
         end.
  unfold acme_keys_present. repeat split; assumption.
Qed.

Lemma acme_parse_raises_key_error (d : Acme.dto) (e : pyexn) :
  Acme.parse d = inl e -> e = KeyError.
Proof.
  intros P. unfold Acme.parse in P. failed_bind P. discriminate P.
Qed.

(** X13. [Acme.parse] reads every key with [dto[...]] and none with
    [dto.get]: a record that lacks one of the eleven keys yields no Hotel,
    and, its other values being of the supplier's types, the call raises
    [KeyError]. *)
Theorem acme_parse_missing_key_raises (d : Acme.dto) :
  ~ acme_keys_present d ->
  Acme.parse d = raise KeyError /\ forall h, Acme.parse d <> ok h.
Proof.
  intros M. destruct (Acme.parse d) as [e|h] eqn:P.
  - apply acme_parse_raises_key_error in P as ->.
    split; [reflexivity | discriminate].
  - exfalso. apply M. now apply (acme_parse_ok_keys d h).
Qed.

Lemma string_app_assoc (a b c : string) :
  ((a ++ b) ++ c = a ++ b ++ c)%string.
Proof. induction a; cbn; congruence. Qed.

Lemma string_app_empty (a : string) : (a ++ "")%string = a.
Proof. induction a; cbn; congruence. Qed.

Lemma str_in_suffix (a b p : string) : str_in p (a ++ b ++ p) = true.
Proof.
  apply str_in_app. exists (a ++ b)%string, EmptyString.
  now rewrite string_app_empty, string_app_assoc.
Qed.

(** X14. The address [Acme.parse] builds is the stripped [Address] (the empty
    string for a null), followed by [", "] and the postal code when there is a
    non-empty postal code that the stripped address does not already contain;
    so the address contains every non-empty postal code, and none twice on
    account of the parse. *)
Theorem acme_address_carries_postal_code (d : Acme.dto) (h : Hotel) :
  Acme.parse d = ok h ->
  let street :=
    strip (match get (Acme.Address d) with Some s => s | None => "" end) in
  exists address,
    Location.address (location h) = VStr address
    /\ (forall postal,
          Acme.PostalCode d = Val postal -> postal <> "" ->
          str_in postal address = true
          /\ (str_in postal street = true -> address = street)
          /\ (str_in postal street = false ->
              address = (street ++ ", " ++ postal)%string))
    /\ (Acme.PostalCode d = Null \/ Acme.PostalCode d = Val "" ->
        address = street).
Proof.
  intros P street. unfold Acme.parse in P. invert_binds P.
  injection P as <-. cbn [location Location.address].
  eexists. split; [reflexivity|].
  apply getitem_ok in E as [-> _]. apply getitem_ok in E0 as [-> _].
  rewrite or_default_string. fold street. split.
  - intros postal Ep Ne. rewrite Ep. cbn [get get_default].
    assert (T : truthy postal = true) by now destruct postal.
    rewrite T. cbn [andb].
    destruct (str_in postal street) eqn:S; cbn [negb]; repeat split;
      try congruence.
    apply (str_in_suffix street ", " postal).
  - intros [-> | ->]; reflexivity.
Qed.

Lemma acme_loop_filter (facilities general room : list string) :
  Acme.parse_amenities_loop facilities general room
  = (general ++ filter (fun t => list_in t GENERAL_AMENITIES)
                       (map acme_token facilities),
     room ++ filter (fun t => list_in t ROOM_AMENITIES)
                    (map acme_token facilities)).
Proof.
  revert general room.
  induction facilities as [|amenity rest IH]; intros general room.
  - cbn. now rewrite !app_nil_r.
  - cbn [Acme.parse_amenities_loop map filter]. rewrite IH.
    fold (acme_token amenity).
    destruct (list_in (acme_token amenity) GENERAL_AMENITIES);
      destruct (list_in (acme_token amenity) ROOM_AMENITIES);
      rewrite <- ?app_assoc; reflexivity.
Qed.

Lemma vocabularies_disjoint (t : string) :
  list_in t GENERAL_AMENITIES = true -> list_in t ROOM_AMENITIES = false.
Proof.
  intros G. apply list_in_In in G. cbn in G.
  repeat (destruct G as [<-|G]; [reflexivity|]). contradiction.
Qed.

Lemma filter_exclusive_length {A} (p q : A -> bool) (l : list A) :
  (forall x, p x = true -> q x = false) ->
  length (filter p l) + length (filter q l) <= length l.
Proof.
  intros X. induction l as [|x l IH]; cbn; [lia|].
  destruct (p x) eqn:P.
  - rewrite (X x P). cbn. lia.
  - destruct (q x); cbn; lia.
Qed.

(** X15. Acme's classifier keeps the facilities in the order of the raw list:
    each amenity list is the normalized tokens filtered by its vocabulary. No
    token is filed under both, so the two lists together are no longer than
    the raw list. *)
Theorem acme_parse_amenities_filters_in_order (facilities : list string) :
  Acme.parse_amenities facilities
  = Amenities.mk
      (filter (fun t => list_in t GENERAL_AMENITIES)
              (map acme_token facilities))
      (filter (fun t => list_in t ROOM_AMENITIES)
              (map acme_token facilities))
  /\ length (Amenities.general (Acme.parse_amenities facilities))
     + length (Amenities.room (Acme.parse_amenities facilities))
     <= length facilities.
Proof.
  assert (E : Acme.parse_amenities facilities
              = Amenities.mk
                  (filter (fun t => list_in t GENERAL_AMENITIES)
                          (map acme_token facilities))
                  (filter (fun t => list_in t ROOM_AMENITIES)
                          (map acme_token facilities))).
  { unfold Acme.parse_amenities. now rewrite acme_loop_filter. }
  split; [assumption|]. rewrite E. cbn [Amenities.general Amenities.room].
  rewrite <- (length_map acme_token facilities).
  apply filter_exclusive_length, vocabularies_disjoint.
Qed.

(** ** The two classifiers side by side *)

Lemma is_space_lower_char (c : ascii) : is_space (lower_char c) = is_space c.
Proof. destruct c as [[] [] [] [] [] [] [] []]; reflexivity. Qed.

Lemma lstrip_lower (s : string) : lstrip (lower s) = lower (lstrip s).
Proof.
  induction s as [|c s IH]; cbn; [reflexivity|].
  rewrite is_space_lower_char. now destruct (is_space c).
Qed.

Lemma rstrip_lower (s : string) : rstrip (lower s) = lower (rstrip s).
Proof.
  induction s as [|c s IH]; cbn; [reflexivity|].
  rewrite IH, is_space_lower_char.
  destruct (rstrip s); cbn; [now destruct (is_space c) | reflexivity].
Qed.

Lemma strip_lower (s : string) : strip (lower s) = lower (strip s).
Proof. unfold strip. now rewrite lstrip_lower, rstrip_lower. Qed.

Lemma space_capitals_no_capital (s : string) :
  has_capital s = false -> space_capitals s = s.
Proof.
  induction s as [|c s IH]; cbn; [reflexivity|].
  destruct (is_upper c); cbn; [discriminate|]. intros C. now rewrite IH.
Qed.

Lemma camel_to_snake_case_no_inner_capital (s : string) :
  has_inner_capital s = false -> camel_to_snake_case s = lower s.
Proof.
  destruct s as [|c s]; cbn; [reflexivity|]. intros C.
  now rewrite space_capitals_no_capital.
Qed.

Lemma acme_parse_amenities_eq (facilities : list string) :
  Acme.parse_amenities facilities
  = Amenities.mk
      (filter (fun t => list_in t GENERAL_AMENITIES)
              (map acme_token facilities))
      (filter (fun t => list_in t ROOM_AMENITIES)
              (map acme_token facilities)).
Proof. unfold Acme.parse_amenities. now rewrite acme_loop_filter. Qed.

(** X16. On facility tokens that have no capital letter after their first
    character, once stripped, the classifier of Acme and that of Patagonia
    give the same two lists: the regex of Acme only matters at a camel-case
    boundary. *)
Theorem classifiers_agree_without_inner_capitals (facilities : list string) :
  Forall (fun a => has_inner_capital (strip a) = false) facilities ->
  Acme.parse_amenities facilities = Patagonia.parse_amenities facilities.
Proof.
  intros F. rewrite acme_parse_amenities_eq. unfold Patagonia.parse_amenities.
  assert (M : map acme_token facilities = map patagonia_token facilities).
  { apply map_ext_in. intros a I. rewrite Forall_forall in F.
    unfold acme_token, patagonia_token.
    rewrite camel_to_snake_case_no_inner_capital by now apply F.
    symmetry. apply strip_lower. }
  rewrite M, !filter_map_swap. reflexivity.
Qed.

(** ** [Paperflies.parse] and [Patagonia.parse] *)

Lemma mapM_ok_map {A B} (f : A -> result B) (g : A -> B) (l : list A) :
  (forall x y, f x = ok y -> y = g x) ->
  forall ys, mapM f l = ok ys -> ys = map g l.
Proof.
  intros G. induction l as [|x l IH]; cbn; intros ys E.
  - now injection E as <-.
  - destruct (f x) as [e|y] eqn:Fx; cbn [rbind] in E; [discriminate|].
    destruct (mapM f l) as [e|ys'] eqn:Ml; cbn [rbind] in E; [discriminate|].
    injection E as <-. now rewrite (G x y Fx), (IH ys' eq_refl).
Qed.

Lemma paperflies_parse_image_ok (img : Paperflies.image_dto) (y : Image.t) :
  Paperflies.parse_image img = ok y -> y = paperflies_image img.
Proof.
  unfold Paperflies.parse_image. intros P. invert_binds P.
  injection P as <-.
  apply getitem_ok in E as [-> _]. apply getitem_ok in E0 as [-> _].
  reflexivity.
Qed.

Lemma paperflies_parse_images_ok
      (i : Paperflies.images_dto)
      (k : Paperflies.images_dto -> jfield (list Paperflies.image_dto))
      (ys : list Image.t) :
  Paperflies.parse_images (Some i) k = ok ys ->
  exists l, get_default (k i) (Some []) = Some l
            /\ ys = map paperflies_image l.
Proof.
  unfold Paperflies.parse_images. intros P.
  destruct (get_default (k i) (Some [])) as [l|]; cbn in P; [|discriminate].
  exists l. split; [reflexivity|].
  now apply (mapM_ok_map _ _ _ paperflies_parse_image_ok).
Qed.

(** X17. When [Paperflies.parse] yields a Hotel from a record with an images
    object, the [rooms] and [site] sequences are the supplier's, image for
    image and in the same order, with [caption] renamed to [description] (an
    absent key gives the empty sequence); the [amenities] sequence is
    empty. *)
Theorem paperflies_images_relabelled
        (d : Paperflies.dto) (h : Hotel) (i : Paperflies.images_dto) :
  Paperflies.parse d = ok h ->
  Paperflies.images d = Val i ->
  exists lr ls,
    get_default (Paperflies.rooms i) (Some []) = Some lr
    /\ get_default (Paperflies.site i) (Some []) = Some ls
    /\ Images.rooms (images h) = map paperflies_image lr
    /\ Images.site (images h) = map paperflies_image ls
    /\ Images.amenities (images h) = [].
Proof.
  intros P I. unfold Paperflies.parse in P. invert_binds P.
  injection P as <-. cbn [images Images.rooms Images.site Images.amenities].
  rewrite I in *.
  repeat match goal with
         | E : getitem (Val i) = inr _ |- _ => cbn in E; injection E as <-
         end.
  match goal with
  | E : Paperflies.parse_images (Some i) Paperflies.rooms = inr _ |- _ =>
      apply paperflies_parse_images_ok in E as (lr & Gr & ->)
  end.
  match goal with
  | E : Paperflies.parse_images (Some i) Paperflies.site = inr _ |- _ =>
      apply paperflies_parse_images_ok in E as (ls & Gs & ->)
  end.
  now exists lr, ls.
Qed.

(** X18. A Paperflies record whose [location] is null yields no Hotel: with
    the four keys read before it in place, the parse raises
    [AttributeError]. An absent [location] is no error. *)
Theorem paperflies_null_location_raises (d : Paperflies.dto) :
  Paperflies.location d = Null ->
  (forall h, Paperflies.parse d <> ok h)
  /\ (Paperflies.hotel_id d <> None ->
      Paperflies.destination_id d <> Absent ->
      Paperflies.hotel_name d <> Absent ->
      Paperflies.details d <> Absent ->
      Paperflies.parse d = raise AttributeError).
Proof.
  intros L. split.
  - intros h P. unfold Paperflies.parse in P. rewrite L in P.
    cbn [get_default] in P.
    repeat (cbv zeta in P;
            match type of P with
            | rbind (Paperflies.location_get None _) _ = _ =>
                cbn in P; discriminate P
            | rbind ?m _ = _ =>
                destruct m; cbn [rbind] in P; [discriminate P|]
            end).
  - intros I De N Ds. unfold Paperflies.parse. rewrite L.
    destruct (Paperflies.hotel_id d) as [i|]; [|congruence].
    destruct (getitem_id_present _ De) as [v ->].
    rewrite (getitem_present _ N), (getitem_present _ Ds).
    reflexivity.
Qed.

Lemma paperflies_parse_location (d : Paperflies.dto) (h : Hotel) :
  Paperflies.parse d = ok h ->
  Location.lat (location h) = VNone
  /\ Location.lng (location h) = VNone
  /\ Location.city (location h) = VNone.
Proof.
  intros P. unfold Paperflies.parse in P. invert_binds P.
  injection P as <-. repeat split.
Qed.

Lemma patagonia_parse_location (d : Patagonia.dto) (h : Hotel) :
  Patagonia.parse d = ok h ->
  Location.city (location h) = VNone
  /\ Location.country (location h) = VNone.
Proof.
  intros P. unfold Patagonia.parse in P. invert_binds P.
  injection P as <-. repeat split.
Qed.

(** X19. Neither Paperflies nor Patagonia ever supplies a city (nor
    Paperflies a latitude or longitude, nor Patagonia a country): a hotel
    merged from their records only, in either order, has no city. *)
Theorem city_comes_from_acme_only
        {set_order : PySet}
        (dp : Paperflies.dto) (dg : Patagonia.dto) (hp hg : Hotel) :
  Paperflies.parse dp = ok hp ->
  Patagonia.parse dg = ok hg ->
  Location.city (location (snd (merge_existing hg hp))) = VNone
  /\ Location.city (location (snd (merge_existing hp hg))) = VNone
  /\ Location.lat (location hp) = VNone
  /\ Location.lng (location hp) = VNone
  /\ Location.country (location hg) = VNone.
Proof.
  intros Pp Pg.
  apply paperflies_parse_location in Pp as (La & Lo & Cp).
  apply patagonia_parse_location in Pg as (Cg & Co).
  pose proof (location_update_getk Location.Kcity (location hp) (location hg))
    as U1.
  pose proof (location_update_getk Location.Kcity (location hg) (location hp))
    as U2.
  cbn [Location.getk] in U1, U2.
  rewrite !merge_existing_location, U1, U2, Cp, Cg. repeat split; assumption.
Qed.

(** ** [fetch] and [fetch_hotels] *)

Lemma mapM_ok_Forall2 {A B} (f : A -> result B) (l : list A) (ys : list B) :
  mapM f l = ok ys <-> Forall2 (fun x y => f x = ok y) l ys.
Proof.
  revert ys. induction l as [|x l IH]; intros ys; cbn.
  - split.
    + intros E. injection E as <-. constructor.
    + intros F. now inversion F.
  - split.
    + intros E.
      destruct (f x) as [e|y] eqn:Fx; cbn [rbind] in E; [discriminate|].
      destruct (mapM f l) as [e|ys'] eqn:Ml; cbn [rbind] in E;
        [discriminate|].
      injection E as <-. constructor; [assumption|]. now apply IH.
    + intros F. inversion F as [|x' y l' ys' Fx Fl]; subst.
      rewrite Fx. cbn [rbind]. apply IH in Fl. now rewrite Fl.
Qed.

Lemma mapM_first_failure {A B} (f : A -> result B)
      (l1 l2 : list A) (x : A) (e : pyexn) :
  Forall (fun a => exists b, f a = ok b) l1 ->
  f x = raise e ->
  mapM f (l1 ++ x :: l2) = raise e.
Proof.
  intros F X. induction F as [|a l1 [b Fa] F IH]; cbn.
  - now rewrite X.
  - rewrite Fa. cbn [rbind]. now rewrite IH.
Qed.

(** X20. [fetch] returns a list exactly when every record of the payload
    parses, and then one Hotel per record, in the order of the payload; when
    a record fails, the call raises the exception of the first such record
    and returns no hotel at all. *)
Theorem fetch_all_or_nothing {dto} (parse : dto -> result Hotel)
        (json : list dto) :
  (forall supplier_hotels,
      fetch parse json = ok supplier_hotels <->
      Forall2 (fun d h => parse d = ok h) json supplier_hotels)
  /\ (forall before d after e,
        json = before ++ d :: after ->
        Forall (fun x => exists h, parse x = ok h) before ->
        parse d = raise e ->
        fetch parse json = raise e).
Proof.
  split.
  - intros supplier_hotels. apply mapM_ok_Forall2.
  - intros before d after e -> F X. now apply mapM_first_failure.
Qed.

Lemma first_seen_In (k : string) (ids : list string) :
  In k (first_seen ids) <-> In k ids.
Proof.
  unfold first_seen. rewrite <- in_rev, nodup_In, <- in_rev. reflexivity.
Qed.

Lemma merge_and_save_first_seen {set_order : PySet}
      (supplier_data : list Hotel) :
  fst (merge_and_save supplier_data new_service) = ok tt ->
  dict_keys (hotels (snd (merge_and_save supplier_data new_service)))
  = first_seen (map id supplier_data).
Proof.
  intros R. rewrite merge_and_save_keys by assumption.
  rewrite fold_add_key_first_seen by constructor.
  cbn [new_service hotels dict_keys map rev]. now rewrite app_nil_r.
Qed.

(** X21. When [fetch_hotels] returns, all three payloads parsed, and the
    hotels it returns have pairwise different ids, each the id of a parsed
    record; with two empty filters they are one hotel for every id of the
    payloads, in the order in which the ids were first seen, Acme's records
    first. *)
Theorem fetch_hotels_one_hotel_per_id
        {set_order : PySet}
        {C D} `{Truthy C} `{Contains C} `{Truthy D} `{Contains D}
        (net : Payloads) (hotel_ids : C) (destination_ids : D)
        (filtered : list Hotel) :
  fetch_hotels net hotel_ids destination_ids = ok filtered ->
  exists a p g,
    fetch Acme.parse (acme_json net) = ok a
    /\ fetch Paperflies.parse (paperflies_json net) = ok p
    /\ fetch Patagonia.parse (patagonia_json net) = ok g
    /\ NoDup (map id filtered)
    /\ incl (map id filtered) (map id (a ++ p ++ g))
    /\ (truthy hotel_ids = false -> truthy destination_ids = false ->
        map id filtered = first_seen (map id (a ++ p ++ g))).
Proof.
  unfold fetch_hotels. intros P. invert_binds P.
  destruct (merge_and_save (l ++ l0 ++ l1) new_service) as [r svc] eqn:M.
  destruct r as [e|[]]; cbn [rbind] in P; [discriminate|].
  unfold find in P. cbn [fst] in P. injection P as <-.
  exists l, l0, l1. do 3 (split; [reflexivity|]).
  assert (K : keyed_by_id (hotels svc)).
  { replace svc with (snd (merge_and_save (l ++ l0 ++ l1) new_service))
      by now rewrite M.
    apply merge_and_save_keyed_by_id. split; constructor. }
  assert (F : dict_keys (hotels svc) = first_seen (map id (l ++ l0 ++ l1))).
  { replace svc with (snd (merge_and_save (l ++ l0 ++ l1) new_service))
      by now rewrite M.
    apply merge_and_save_first_seen. now rewrite M. }
  split; [|split].
  - apply NoDup_map_filter. rewrite keyed_by_id_ids by assumption.
    now destruct K.
  - intros k I. apply in_map_iff in I as (h & <- & I).
    apply filter_In in I as [I _].
    apply first_seen_In. rewrite <- F, <- keyed_by_id_ids by assumption.
    now apply in_map.
  - intros -> ->. cbn [negb orb andb]. rewrite filter_true.
    now rewrite keyed_by_id_ids.
Qed.

(** ** The further properties on sample records *)

(** X2 on a service that holds another hotel. *)
Lemma merge_and_save_frame_witness :
  dict_get "SjyX"
    (hotels (snd (@merge_and_save PySet_nodup [beach_villas_long]
                                  acme_repeated_service)))
  = dict_get "SjyX" (hotels acme_repeated_service).
Proof.
  apply (@merge_and_save_frame PySet_nodup). intros [E|[]]. discriminate E.
Defined.

(** X4 on a record without booking conditions. *)
Lemma merge_and_save_raises_witness :
  @merge_and_save PySet_nodup [beach_villas_no_conditions; beach_villas_long]
                  beach_villas_service
  = (raise TypeError,
     mkService
       (dict_set "iJhz"
          (snd (@merge_existing PySet_nodup beach_villas_no_conditions
                                beach_villas_short))
          (hotels beach_villas_service))).
Proof.
  exact (@merge_and_save_raises_on_none PySet_nodup
           beach_villas_no_conditions beach_villas_short [beach_villas_long]
           beach_villas_service eq_refl (or_intror eq_refl)).
Defined.

(** X5 on three records of two hotels. *)
Lemma merge_and_save_one_entry_per_id_witness :
  dict_keys
    (hotels (snd (@merge_and_save PySet_nodup
                    [beach_villas_short; acme_repeated_hotel;
                     beach_villas_long] new_service)))
  = ["iJhz"; "SjyX"]
  /\ keyed_by_id
       (hotels (snd (@merge_and_save PySet_nodup
                       [beach_villas_short; acme_repeated_hotel;
                        beach_villas_long] new_service))).
Proof.
  exact (@merge_and_save_one_entry_per_id PySet_nodup
           [beach_villas_short; acme_repeated_hotel; beach_villas_long]
           eq_refl).
Defined.

(** X6 on a registered hotel with a short description. *)
Lemma description_never_shrinks_witness :
  exists h',
    dict_get "iJhz"
      (hotels (snd (@merge_and_save PySet_nodup [beach_villas_long]
                                    beach_villas_service)))
    = Some h'
    /\ 5 <= String.length (description h').
Proof.
  exact (@description_never_shrinks PySet_nodup [beach_villas_long]
           beach_villas_service "iJhz" beach_villas_short eq_refl).
Defined.

(** X7 on a registered hotel with a name. *)
Lemma name_stays_non_empty_witness :
  exists h',
    dict_get "iJhz"
      (hotels (snd (@merge_and_save PySet_nodup [paperflies_null_hotel]
                                    beach_villas_service)))
    = Some h'
    /\ truthy (name h') = true.
Proof.
  exact (@name_stays_non_empty PySet_nodup [paperflies_null_hotel]
           beach_villas_service "iJhz" beach_villas_short eq_refl eq_refl).
Defined.

(** X9 on a record that lists one picture twice. *)
Lemma incoming_repeated_image_witness :
  Images.rooms
    (images (snd (@merge_existing PySet_nodup beach_villas_pictured_twice
                                  beach_villas_short)))
  = [double_room_image; double_room_image]
  /\ ~ NoDup
        (Images.rooms
           (images (snd (@merge_existing PySet_nodup
                           beach_villas_pictured_twice beach_villas_short)))).
Proof.
  exact (@incoming_repeated_image_is_kept PySet_nodup
           beach_villas_pictured_twice beach_villas_short double_room_image
           eq_refl (fun F => F)).
Defined.

(** X10 on two records of one hotel. *)
Lemma booking_conditions_united_witness :
  exists m,
    booking_conditions
      (snd (@merge_existing PySet_nodup beach_villas_long beach_villas_short))
    = Some m
    /\ NoDup m
    /\ forall x, In x m <-> In x [] \/ In x ["All children are welcome."].
Proof.
  exact (@booking_conditions_united PySet_nodup beach_villas_long
           beach_villas_short [] ["All children are welcome."]
           eq_refl eq_refl).
Defined.

(** X12 on a service with one hotel, and two empty sets as filters. *)
Lemma find_returns_each_id_once_witness :
  exists found,
    fst (find ([] : list string) ([] : list string) acme_repeated_service)
    = ok found
    /\ NoDup (map id found)
    /\ (truthy ([] : list string) = false ->
        truthy ([] : list string) = false ->
        found = dict_values (hotels acme_repeated_service)).
Proof.
  apply (find_returns_each_id_once ([] : list string) ([] : list string)).
  split.
  - constructor; [intros []|constructor].
  - repeat constructor.
Defined.

(** X14 on an Acme record whose address lacks the postal code. *)
Lemma acme_address_carries_postal_code_witness :
  exists address,
    Location.address (location acme_sentosa_hotel) = VStr address
    /\ str_in "098269" address = true.
Proof.
  destruct (acme_address_carries_postal_code acme_sentosa_dto
              acme_sentosa_hotel eq_refl) as (address & E & P & _).
  exists address. split; [exact E|].
  refine (proj1 (P "098269" eq_refl _)). discriminate.
Defined.

(** X16 on three tokens in the spelling of Patagonia. *)
Lemma classifiers_agree_witness :
  Acme.parse_amenities [" Breakfast"; "aircon"; "Tv "]
  = Patagonia.parse_amenities [" Breakfast"; "aircon"; "Tv "].
Proof.
  apply classifiers_agree_without_inner_capitals.
  repeat constructor.
Defined.

(** X17 on a Paperflies record with two pictures of rooms. *)
Lemma paperflies_images_relabelled_witness :
  exists lr ls,
    get_default (Paperflies.rooms paperflies_sample_images) (Some [])
    = Some lr
    /\ get_default (Paperflies.site paperflies_sample_images) (Some [])
       = Some ls
    /\ Images.rooms (images paperflies_images_hotel)
       = map paperflies_image lr
    /\ Images.site (images paperflies_images_hotel) = map paperflies_image ls
    /\ Images.amenities (images paperflies_images_hotel) = [].
Proof.
  exact (paperflies_images_relabelled paperflies_images_dto
           paperflies_images_hotel paperflies_sample_images
           eq_refl eq_refl).
Defined.

(** X18 on a Paperflies record with a null location. *)
Lemma paperflies_null_location_witness :
  (forall h, Paperflies.parse paperflies_null_location_dto <> ok h)
  /\ Paperflies.parse paperflies_null_location_dto = raise AttributeError.
Proof.
  destruct (paperflies_null_location_raises paperflies_null_location_dto
              eq_refl) as [A B].
  split; [exact A|]. apply B; cbn; discriminate.
Defined.

(** X19 on the Paperflies and the Patagonia record of one hotel. *)
Lemma city_comes_from_acme_only_witness :
  Location.city
    (location (snd (@merge_existing PySet_nodup patagonia_sentosa_hotel
                                    paperflies_images_hotel))) = VNone
  /\ Location.city
       (location (snd (@merge_existing PySet_nodup paperflies_images_hotel
                                       patagonia_sentosa_hotel))) = VNone
  /\ Location.lat (location paperflies_images_hotel) = VNone
  /\ Location.lng (location paperflies_images_hotel) = VNone
  /\ Location.country (location patagonia_sentosa_hotel) = VNone.
Proof.
  exact (@city_comes_from_acme_only PySet_nodup paperflies_images_dto
           patagonia_sentosa_dto paperflies_images_hotel
           patagonia_sentosa_hotel eq_refl eq_refl).
Defined.

(** X21 on one answer of the three endpoints, queried with two empty
    arguments. *)
Lemma fetch_hotels_one_hotel_per_id_witness :
  exists a p g,
    fetch Acme.parse (acme_json sample_payloads) = ok a
    /\ fetch Paperflies.parse (paperflies_json sample_payloads) = ok p
    /\ fetch Patagonia.parse (patagonia_json sample_payloads) = ok g
    /\ NoDup (map id sample_run)
    /\ incl (map id sample_run) (map id (a ++ p ++ g))
    /\ (truthy "" = false -> truthy "" = false ->
        map id sample_run = first_seen (map id (a ++ p ++ g))).
Proof.
  apply (@fetch_hotels_one_hotel_per_id PySet_nodup string string _ _ _ _
           sample_payloads "" "" sample_run).
  vm_compute. reflexivity.
Defined.

(** X13 on an Acme record without its [Name] key. *)
Lemma acme_parse_missing_key_witness :
  Acme.parse acme_nameless_dto = raise KeyError
  /\ forall h, Acme.parse acme_nameless_dto <> ok h.
Proof.
  apply acme_parse_missing_key_raises.
  intros (_ & _ & N & _). now apply N.
Defined.

(** X20 on a payload whose second record lacks its keys. *)
Lemma fetch_all_or_nothing_witness :
  fetch Acme.parse
        [acme_null_dto;
         Acme.mkDto None Absent Absent Absent Absent Absent Absent Absent
                    Absent Absent Absent;
         acme_sentosa_dto]
  = raise KeyError.
Proof.
  apply (proj2 (fetch_all_or_nothing Acme.parse _) [acme_null_dto] _
               [acme_sentosa_dto] KeyError eq_refl).
  - repeat constructor. eexists. reflexivity.
  - reflexivity.
Defined.

(** C4 on the service that holds the Acme hotel with a facility listed twice:
    the second merge raises nothing and leaves each list without
    repetition. *)
Lemma remerge_rebuilds_lists_witness :
  Forall (fun e => rebuilt_through_sets (snd e))
         (hotels (snd (@merge_and_save PySet_nodup
                         (dict_values (hotels acme_repeated_service))
                         acme_repeated_service))).
Proof.
  exact (proj2 (@remerge_keeps_fields_and_elements PySet_nodup
                  [acme_repeated_hotel]) eq_refl).
Defined.
